(** * aisearch-mcp: the tool registry and dispatcher of [server.py]

    A shallow embedding of [list_tools] and [call_tool] together with the
    few helpers they use ([get_credential], [get_search_client],
    [get_index_client]).  Python values are an inductive type, Python
    dictionaries whose order is observable (documents, JSON payloads,
    keyword arguments) are association lists in insertion order, and the
    [arguments] dictionary of a tool call, which the code only ever reads
    with [.get], is a finite map.  The Azure SDK is an external
    collaborator: it is a record of response functions, and every
    operation the server invokes on it is recorded in the world. *)

From Stdlib Require Import ZArith String Ascii List Bool.
From stdpp Require Import gmap strings list pretty.

Open Scope string_scope.
Set Warnings "-register-all".

(** ** Python values *)

(** A [float], as far as this module observes one: the text [json.dumps]
    writes for it, and its truth value. *)
Record py_float := { float_json : string; float_is_zero : bool }.

(** Any other object (a [datetime], say): its class name and its [str()]. *)
Record py_object := { obj_class : string; obj_str : string }.

(** A [str] is a [string] with one character per code point; code points
    above 255 are outside the model. *)
Inductive value :=
| VNone
| VBool (b : bool)
| VInt (z : Z)
| VFloat (f : py_float)
| VStr (s : string)
| VList (l : list value)
| VDict (d : list (string * value))
| VObj (o : py_object).

(** A [dict] with [str] keys, in insertion order. *)
Abbreviation dict := (list (string * value)).

(** [bool(v)]. *)
Definition truthy (v : value) : bool :=
  match v with
  | VNone => false
  | VBool b => b
  | VInt z => negb (z =? 0)%Z
  | VFloat f => negb (float_is_zero f)
  | VStr s => negb (String.eqb s "")
  | VList l => match l with [] => false | _ :: _ => true end
  | VDict d => match d with [] => false | _ :: _ => true end
  | VObj _ => true
  end.

(** [a or b]. *)
Definition py_or (a b : value) : value := if truthy a then a else b.

(** [type(v).__name__]. *)
Definition type_name (v : value) : string :=
  match v with
  | VNone => "NoneType"
  | VBool _ => "bool"
  | VInt _ => "int"
  | VFloat _ => "float"
  | VStr _ => "str"
  | VList _ => "list"
  | VDict _ => "dict"
  | VObj o => obj_class o
  end.

(** An optional [str] ([os.getenv]) as a value. *)
Definition of_getenv (o : option string) : value :=
  match o with Some s => VStr s | None => VNone end.

(** ** Dictionaries in insertion order *)

(** [d.get(k)] as an option. *)
Fixpoint dict_lookup (k : string) (d : dict) : option value :=
  match d with
  | [] => None
  | (k', v) :: d' => if String.eqb k k' then Some v else dict_lookup k d'
  end.

(** [d.get(k)]: [None] when the key is missing. *)
Definition dict_get (k : string) (d : dict) : value :=
  match dict_lookup k d with Some v => v | None => VNone end.

(** [d[k] = v]: an existing key keeps its place, a new one goes last. *)
Fixpoint dict_set (k : string) (v : value) (d : dict) : dict :=
  match d with
  | [] => [(k, v)]
  | (k', v') :: d' =>
      if String.eqb k k' then (k', v) :: d' else (k', v') :: dict_set k v d'
  end.

(** [k in d]. *)
Definition has_key (k : string) (d : dict) : bool :=
  match dict_lookup k d with Some _ => true | None => false end.

(** [k.startswith(p)]. *)
Definition startswith (p k : string) : bool := String.prefix p k.

(** [s.split(sep)] for a one-character separator. *)
Fixpoint split (sep : ascii) (s : string) : list string :=
  match s with
  | EmptyString => [""]
  | String c s' =>
      if Ascii.eqb c sep then "" :: split sep s'
      else match split sep s' with
           | [] => [String c ""]
           | w :: ws => String c w :: ws
           end
  end.

(** ** Exceptions and outcomes *)

(** An instance of Python's [Exception], which is what the [except]
    clause of [call_tool] names: its class and its [str()].  The signals
    that derive from [BaseException] only ([KeyboardInterrupt],
    [SystemExit], task cancellation) are not failures of a call and are
    outside the model. *)
Record Exception := { exc_class : string; exc_str : string }.

Definition ValueError (msg : string) : Exception :=
  {| exc_class := "ValueError"; exc_str := msg |}.
Definition TypeError (msg : string) : Exception :=
  {| exc_class := "TypeError"; exc_str := msg |}.
Definition AttributeError (msg : string) : Exception :=
  {| exc_class := "AttributeError"; exc_str := msg |}.

(** What evaluating a Python expression or running a block gives. *)
Inductive Outcome (A : Type) :=
| Return (a : A)
| Raise (e : Exception).
Arguments Return {A} a.
Arguments Raise {A} e.

Definition raised {A} (o : Outcome A) : option Exception :=
  match o with Return _ => None | Raise e => Some e end.

(** [select.split(",")] on an arbitrary value: only a [str] has the method. *)
Definition py_split (v : value) : Outcome value :=
  match v with
  | VStr s => Return (VList (map VStr (split "," s)))
  | _ => Raise (AttributeError
                  ("'" ++ type_name v ++ "' object has no attribute 'split'"))
  end.

(** ** [json.dumps(obj, indent=2)] *)

Definition dquote : string := String (ascii_of_nat 34) EmptyString.
Definition newline : string := String (ascii_of_nat 10) EmptyString.

Definition hex_digit (n : nat) : string :=
  match String.get n "0123456789abcdef" with
  | Some c => String c EmptyString
  | None => ""
  end.

(** One character of a JSON string with [ensure_ascii=True]. *)
Definition json_escape_char (c : ascii) : string :=
  let n := nat_of_ascii c in
  if (n =? 34)%nat then "\" ++ dquote
  else if (n =? 92)%nat then "\\"
  else if (n =? 10)%nat then "\n"
  else if (n =? 13)%nat then "\r"
  else if (n =? 9)%nat then "\t"
  else if (n =? 8)%nat then "\b"
  else if (n =? 12)%nat then "\f"
  else if ((32 <=? n) && (n <=? 126))%nat then String c EmptyString
  else "\u00" ++ hex_digit (n / 16) ++ hex_digit (n mod 16).

Fixpoint json_escape (s : string) : string :=
  match s with
  | EmptyString => ""
  | String c s' => json_escape_char c ++ json_escape s'
  end.

Definition json_string (s : string) : string :=
  dquote ++ json_escape s ++ dquote.

Fixpoint indent_of (level : nat) : string :=
  match level with
  | O => ""
  | S n => "  " ++ indent_of n
  end.

Fixpoint join (sep : string) (l : list string) : string :=
  match l with
  | [] => ""
  | [x] => x
  | x :: l' => x ++ sep ++ join sep l'
  end.

(** The text of a value at nesting depth [level]; an object that JSON
    does not know is written as the string [str(o)] (the [default=str]
    hook), see [json_dumps] for the call without the hook. *)
Fixpoint json_encode (level : nat) (v : value) : string :=
  let sep := "," ++ newline ++ indent_of (S level) in
  match v with
  | VNone => "null"
  | VBool true => "true"
  | VBool false => "false"
  | VInt z => pretty z
  | VFloat f => float_json f
  | VStr s => json_string s
  | VObj o => json_string (obj_str o)
  | VList [] => "[]"
  | VList l =>
      "[" ++ newline ++ indent_of (S level)
          ++ join sep (map (json_encode (S level)) l)
          ++ newline ++ indent_of level ++ "]"
  | VDict [] => "{}"
  | VDict d =>
      "{" ++ newline ++ indent_of (S level)
          ++ join sep (map (fun kv =>
                              json_string (fst kv) ++ ": "
                                ++ json_encode (S level) (snd kv)) d)
          ++ newline ++ indent_of level ++ "}"
  end.

Arguments json_encode : simpl never.

(** The first object, in writing order, that JSON does not know. *)
Fixpoint first_object (v : value) : option py_object :=
  match v with
  | VObj o => Some o
  | VList l =>
      (fix go (l : list value) : option py_object :=
         match l with
         | [] => None
         | x :: l' => match first_object x with
                      | Some o => Some o
                      | None => go l'
                      end
         end) l
  | VDict d =>
      (fix go (d : dict) : option py_object :=
         match d with
         | [] => None
         | kv :: d' => match first_object (snd kv) with
                       | Some o => Some o
                       | None => go d'
                       end
         end) d
  | _ => None
  end.

(** [json.dumps(v, indent=2, default=str)] when [default_str], and
    [json.dumps(v, indent=2)] otherwise. *)
Definition json_dumps (default_str : bool) (v : value) : Outcome string :=
  if default_str then Return (json_encode 0 v)
  else match first_object v with
       | None => Return (json_encode 0 v)
       | Some o => Raise (TypeError ("Object of type " ++ obj_class o
                                       ++ " is not JSON serializable"))
       end.

(** ** The Azure SDK, as the server sees it *)

Inductive Credential :=
| AzureKeyCredential (key : string)
| DefaultAzureCredential.

(** The three keyword arguments [SearchClient(...)] is built from. *)
Record SearchClient := {
  sc_endpoint : option string;
  sc_index_name : value;
  sc_credential : Credential
}.

Record SearchIndexClient := {
  ic_endpoint : option string;
  ic_credential : Credential
}.

(** A [SearchField]; [field_type] is [str(field.type)]. *)
Record SearchField := {
  field_name : string;
  field_type : string;
  field_searchable : option bool;
  field_filterable : option bool;
  field_sortable : option bool;
  field_facetable : option bool;
  field_key : option bool
}.

Record SemanticConfiguration := { configuration_name : string }.

Record SemanticSearch := {
  configurations : option (list SemanticConfiguration)
}.

Record SearchIndex := {
  index_name : string;
  index_fields : option (list SearchField);
  index_semantic_search : option SemanticSearch
}.

(** The operations of the search service that [call_tool] invokes. *)
Inductive BackendCall :=
| call_search (client : SearchClient) (search_text : value) (kwargs : dict)
| call_list_indexes (client : SearchIndexClient)
| call_get_index (client : SearchIndexClient) (name : value)
| call_get_document (client : SearchClient) (key : value)
    (selected_fields : value)
| call_get_document_count (client : SearchClient).

(** The collaborator: what each constructor and operation answers.  A
    paged result is the list of its items; an exception raised while the
    pages are iterated is an exception of the operation, since the server
    keeps nothing of a partly consumed result. *)
Record Backend := {
  new_SearchClient : SearchClient -> option Exception;
  new_SearchIndexClient : SearchIndexClient -> option Exception;
  client_search : SearchClient -> value -> dict -> Outcome (list dict);
  client_list_indexes : SearchIndexClient -> Outcome (list SearchIndex);
  client_get_index : SearchIndexClient -> value -> Outcome SearchIndex;
  client_get_document : SearchClient -> value -> value -> Outcome dict;
  client_get_document_count : SearchClient -> Outcome Z
}.

(** The module-level configuration read from the environment. *)
Record Config := {
  AZURE_SEARCH_ENDPOINT : option string;
  AZURE_SEARCH_API_KEY : option string;
  AZURE_SEARCH_INDEX : option string
}.

(** ** The world and the monad of handlers *)

(** One operation invoked on the collaborator, and what it raised. *)
Record BackendEvent := {
  ev_call : BackendCall;
  ev_raised : option Exception
}.

(** What a handler can change: the operations invoked so far (oldest
    first) and the records written through [logger.error]. *)
Record World := {
  backend_events : list BackendEvent;
  error_log : list string
}.

Definition M (A : Type) : Type := World -> Outcome A * World.

Definition ret {A} (a : A) : M A := fun w => (Return a, w).

Definition raise {A} (e : Exception) : M A := fun w => (Raise e, w).

Definition bind {A B} (m : M A) (k : A -> M B) : M B :=
  fun w => match m w with
           | (Return a, w') => k a w'
           | (Raise e, w') => (Raise e, w')
           end.

(** [try: body  except Exception as e: handler(e)]. *)
Definition try_except {A} (body : M A) (handler : Exception -> M A) : M A :=
  fun w => match body w with
           | (Return a, w') => (Return a, w')
           | (Raise e, w') => handler e w'
           end.

(** A pure outcome inside the monad. *)
Definition lift {A} (o : Outcome A) : M A := fun w => (o, w).

(** Invoking an operation records it, with the exception if it raised. *)
Definition invoke {A} (c : BackendCall) (answer : Outcome A) : M A :=
  fun w => (answer,
            {| backend_events :=
                 backend_events w
                   ++ [{| ev_call := c; ev_raised := raised answer |}];
               error_log := error_log w |}).

(** [logger.error(msg)]. *)
Definition logger_error (msg : string) : M unit :=
  fun w => (Return tt,
            {| backend_events := backend_events w;
               error_log := error_log w ++ [msg] |}).

Notation "'let!' x ':=' m 'in' k" := (bind m (fun x => k))
  (at level 10, x name, m at level 100, k at level 200).
Notation "'do!' m 'in' k" := (bind m (fun _ => k))
  (at level 10, m at level 100, k at level 200).

(** ** [mcp.types] *)

Record Tool := {
  name : string;
  description : string;
  inputSchema : value
}.

Record TextContent := {
  type : string;
  text : string
}.

(** ** [list_tools] *)

Definition string_property (descr : string) : value :=
  VDict [("type", VStr "string"); ("description", VStr descr)].

Definition top_property : value :=
  VDict [("type", VStr "integer");
         ("description", VStr "Number of results to return (default: 10)");
         ("default", VInt 10)].

Definition object_schema (properties : dict) (required : list string) : value :=
  VDict [("type", VStr "object");
         ("properties", VDict properties);
         ("required", VList (map VStr required))].

Definition search_tool : Tool :=
  {| name := "search";
     description :=
       "Search for documents in Azure AI Search index using full-text search";
     inputSchema :=
       object_schema
         [("query", string_property "The search query text");
          ("index_name",
            string_property
              "Name of the search index (uses default if not specified)");
          ("top", top_property);
          ("select",
            string_property "Comma-separated list of fields to return");
          ("filter", string_property "OData filter expression")]
         ["query"] |}.

Definition vector_search_tool : Tool :=
  {| name := "vector_search";
     description :=
       "Perform vector/semantic search on Azure AI Search index";
     inputSchema :=
       object_schema
         [("query",
            string_property "The search query text for semantic search");
          ("index_name",
            string_property
              "Name of the search index (uses default if not specified)");
          ("top", top_property);
          ("select",
            string_property "Comma-separated list of fields to return");
          ("semantic_configuration",
            string_property "Name of the semantic configuration to use")]
         ["query"] |}.

Definition list_indexes_tool : Tool :=
  {| name := "list_indexes";
     description :=
       "List all available search indexes in the Azure AI Search service";
     inputSchema := object_schema [] [] |}.

Definition get_index_schema_tool : Tool :=
  {| name := "get_index_schema";
     description := "Get the schema/fields of a specific search index";
     inputSchema :=
       object_schema
         [("index_name", string_property "Name of the search index")]
         ["index_name"] |}.

Definition get_document_tool : Tool :=
  {| name := "get_document";
     description := "Retrieve a specific document by its key";
     inputSchema :=
       object_schema
         [("key", string_property "The document key/ID");
          ("index_name",
            string_property
              "Name of the search index (uses default if not specified)");
          ("select",
            string_property "Comma-separated list of fields to return")]
         ["key"] |}.

Definition get_document_count_tool : Tool :=
  {| name := "get_document_count";
     description := "Get the total number of documents in a search index";
     inputSchema :=
       object_schema
         [("index_name",
            string_property
              "Name of the search index (uses default if not specified)")]
         [] |}.

(** The list literal [list_tools] returns. *)
Definition tool_descriptors : list Tool :=
  [search_tool; vector_search_tool; list_indexes_tool;
   get_index_schema_tool; get_document_tool; get_document_count_tool].

(** The names of the registered tools, in declaration order. *)
Definition tool_names : list string := map name tool_descriptors.

(** The handler registered with [@server.list_tools()]. *)
Definition list_tools : M (list Tool) := ret tool_descriptors.

(** The parameters a descriptor declares: the keys of its
    [inputSchema["properties"]]. *)
Definition declared_parameters (t : Tool) : list string :=
  match inputSchema t with
  | VDict schema =>
      match dict_lookup "properties" schema with
      | Some (VDict properties) => map fst properties
      | _ => []
      end
  | _ => []
  end.


(** ** [call_tool] *)

(** [arguments.get(k)] and [arguments.get(k, d)]. *)
Definition arg_get (arguments : gmap string value) (k : string) : value :=
  match arguments !! k with Some v => v | None => VNone end.

Definition arg_get_default (arguments : gmap string value) (k : string)
    (d : value) : value :=
  match arguments !! k with Some v => v | None => d end.

Definition text_content (s : string) : TextContent :=
  {| type := "text"; text := s |}.

Definition of_optional_bool (o : option bool) : value :=
  match o with Some b => VBool b | None => VNone end.

(** [for x in xs] over an attribute that may be [None]. *)
Definition iterate {A} (xs : option (list A)) : Outcome (list A) :=
  match xs with
  | Some l => Return l
  | None => Raise (TypeError "'NoneType' object is not iterable")
  end.

(** The document record [search] builds from one result (lines 209-211). *)
Definition search_document (result : dict) : dict :=
  let doc := List.filter (fun kv => negb (startswith "@" (fst kv))) result in
  dict_set "_score" (dict_get "@search.score" result) doc.

(** The document record [vector_search] builds (lines 239-242). *)
Definition vector_search_document (result : dict) : dict :=
  let doc := List.filter (fun kv => negb (startswith "@" (fst kv))) result in
  let doc := dict_set "_score" (dict_get "@search.score" result) doc in
  dict_set "_reranker_score" (dict_get "@search.reranker_score" result) doc.

(** [{"results": documents, "count": len(documents)}]. *)
Definition results_payload (documents : list dict) : value :=
  VDict [("results", VList (map VDict documents));
         ("count", VInt (Z.of_nat (List.length documents)))].

(** [{"name": index.name, "fields_count": ...}] of [list_indexes]. *)
Definition index_summary (index : SearchIndex) : value :=
  VDict [("name", VStr (index_name index));
         ("fields_count",
           VInt (match index_fields index with
                 | Some ((_ :: _) as fields) => Z.of_nat (List.length fields)
                 | _ => 0
                 end))].

(** One entry of [fields] in [get_index_schema]. *)
Definition field_record (field : SearchField) : value :=
  VDict [("name", VStr (field_name field));
         ("type", VStr (field_type field));
         ("searchable", of_optional_bool (field_searchable field));
         ("filterable", of_optional_bool (field_filterable field));
         ("sortable", of_optional_bool (field_sortable field));
         ("facetable", of_optional_bool (field_facetable field));
         ("key", of_optional_bool (field_key field))].

(** [{"error": str(e)}]. *)
Definition error_payload (msg : string) : value :=
  VDict [("error", VStr msg)].

Section Server.

(** The module-level globals and the SDK the module imports. *)
Variable cfg : Config.
Variable backend : Backend.

Definition get_credential : Credential :=
  match AZURE_SEARCH_API_KEY cfg with
  | Some key => if String.eqb key "" then DefaultAzureCredential
                else AzureKeyCredential key
  | None => DefaultAzureCredential
  end.

(** The arguments [get_search_client] passes to [SearchClient(...)]. *)
Definition search_client_for (index : value) : SearchClient :=
  {| sc_endpoint := AZURE_SEARCH_ENDPOINT cfg;
     sc_index_name := py_or index (of_getenv (AZURE_SEARCH_INDEX cfg));
     sc_credential := get_credential |}.

Definition get_search_client (index : value) : M SearchClient :=
  let client := search_client_for index in
  match new_SearchClient backend client with
  | Some e => raise e
  | None => ret client
  end.

(** The arguments [get_index_client] passes to [SearchIndexClient(...)]. *)
Definition index_client : SearchIndexClient :=
  {| ic_endpoint := AZURE_SEARCH_ENDPOINT cfg;
     ic_credential := get_credential |}.

Definition get_index_client : M SearchIndexClient :=
  match new_SearchIndexClient backend index_client with
  | Some e => raise e
  | None => ret index_client
  end.

(** Lines 190-216. *)
Definition tool_search (arguments : gmap string value)
    : M (list TextContent) :=
  let query := arg_get arguments "query" in
  let index := arg_get arguments "index_name" in
  let top := arg_get_default arguments "top" (VInt 10) in
  let select := arg_get arguments "select" in
  let filter_expr := arg_get arguments "filter" in
  let! client := get_search_client index in
  let search_options := [("top", top)] in
  let! search_options :=
    (if truthy select
     then let! fields := lift (py_split select) in
          ret (dict_set "select" fields search_options)
     else ret search_options) in
  let search_options :=
    if truthy filter_expr
    then dict_set "filter" filter_expr search_options
    else search_options in
  let! results :=
    invoke (call_search client query search_options)
           (client_search backend client query search_options) in
  let documents := map search_document results in
  let! s := lift (json_dumps true (results_payload documents)) in
  ret [text_content s].

(** Lines 218-247. *)
Definition tool_vector_search (arguments : gmap string value)
    : M (list TextContent) :=
  let query := arg_get arguments "query" in
  let index := arg_get arguments "index_name" in
  let top := arg_get_default arguments "top" (VInt 10) in
  let select := arg_get arguments "select" in
  let semantic_config := arg_get arguments "semantic_configuration" in
  let! client := get_search_client index in
  let search_options :=
    [("top", top);
     ("query_type", VStr "semantic");
     ("semantic_configuration_name",
       py_or semantic_config (VStr "default"))] in
  let! search_options :=
    (if truthy select
     then let! fields := lift (py_split select) in
          ret (dict_set "select" fields search_options)
     else ret search_options) in
  let! results :=
    invoke (call_search client query search_options)
           (client_search backend client query search_options) in
  let documents := map vector_search_document results in
  let! s := lift (json_dumps true (results_payload documents)) in
  ret [text_content s].

(** Lines 249-263. *)
Definition tool_list_indexes : M (list TextContent) :=
  let! client := get_index_client in
  let! indexes :=
    invoke (call_list_indexes client)
           (client_list_indexes backend client) in
  let index_list := map index_summary indexes in
  let! s := lift (json_dumps false (VDict [("indexes", VList index_list)])) in
  ret [text_content s].

(** Lines 265-289. *)
Definition tool_get_index_schema (arguments : gmap string value)
    : M (list TextContent) :=
  let index := arg_get arguments "index_name" in
  let! client := get_index_client in
  let! index :=
    invoke (call_get_index client index)
           (client_get_index backend client index) in
  let! index_fields := lift (iterate (index_fields index)) in
  let fields := map field_record index_fields in
  let! semantic_configurations :=
    lift (match index_semantic_search index with
          | Some semantic_search => iterate (configurations semantic_search)
          | None => Return []
          end) in
  let! s :=
    lift (json_dumps false
            (VDict [("index_name", VStr (index_name index));
                    ("fields", VList fields);
                    ("semantic_configurations",
                      VList (map (fun sc => VStr (configuration_name sc))
                                 semantic_configurations))])) in
  ret [text_content s].

(** Lines 291-304. *)
Definition tool_get_document (arguments : gmap string value)
    : M (list TextContent) :=
  let key := arg_get arguments "key" in
  let index := arg_get arguments "index_name" in
  let select := arg_get arguments "select" in
  let! client := get_search_client index in
  let! selected_fields :=
    (if truthy select then lift (py_split select) else ret VNone) in
  let! document :=
    invoke (call_get_document client key selected_fields)
           (client_get_document backend client key selected_fields) in
  let! s := lift (json_dumps true (VDict document)) in
  ret [text_content s].

(** Lines 306-314. *)
Definition tool_get_document_count (arguments : gmap string value)
    : M (list TextContent) :=
  let index := arg_get arguments "index_name" in
  let! client := get_search_client index in
  let! count :=
    invoke (call_get_document_count client)
           (client_get_document_count backend client) in
  let! s :=
    lift (json_dumps false
            (VDict [("index",
                      py_or index (of_getenv (AZURE_SEARCH_INDEX cfg)));
                    ("document_count", VInt count)])) in
  ret [text_content s].

(** The [try] block of [call_tool] (lines 190-317). *)
Definition call_tool_body (name : string) (arguments : gmap string value)
    : M (list TextContent) :=
  if String.eqb name "search" then tool_search arguments
  else if String.eqb name "vector_search" then tool_vector_search arguments
  else if String.eqb name "list_indexes" then tool_list_indexes
  else if String.eqb name "get_index_schema"
    then tool_get_index_schema arguments
  else if String.eqb name "get_document" then tool_get_document arguments
  else if String.eqb name "get_document_count"
    then tool_get_document_count arguments
  else raise (ValueError ("Unknown tool: " ++ name)).

(** The [except Exception as e] clause (lines 319-324). *)
Definition call_tool_handler (name : string) (e : Exception)
    : M (list TextContent) :=
  do! logger_error ("Error executing tool " ++ name ++ ": " ++ exc_str e) in
  let! s := lift (json_dumps false (error_payload (exc_str e))) in
  ret [text_content s].

(** The handler registered with [@server.call_tool()]. *)
Definition call_tool (name : string) (arguments : gmap string value)
    : M (list TextContent) :=
  try_except (call_tool_body name arguments) (call_tool_handler name).

End Server.

(** ** Vocabulary of the statements *)

(** The operations invoked on the collaborator while [m] runs from [w]. *)
Definition events_during {A} (m : M A) (w : World) : list BackendEvent :=
  drop (List.length (backend_events w)) (backend_events (snd (m w))).

(** The list [call_tool] returns from its [except] clause. *)
Definition error_result (msg : string) : list TextContent :=
  [text_content (json_encode 0 (error_payload msg))].

(** The list a tool returns for a payload it serialised. *)
Definition content_result (payload : value) : list TextContent :=
  [text_content (json_encode 0 payload)].


(** The field projection an operation was sent, if it was sent one. *)
Definition projection (c : BackendCall) : option value :=
  match c with
  | call_search _ _ kwargs => dict_lookup "select" kwargs
  | call_get_document _ _ VNone => None
  | call_get_document _ _ selected_fields => Some selected_fields
  | _ => None
  end.

(** The parameters the registry declares for a tool name: none for a
    name that is not registered. *)
Definition parameters_of (tool : string) : list string :=
  flat_map declared_parameters
    (List.filter (fun t => String.eqb tool (name t)) tool_descriptors).


(** The document record [search] or [vector_search] builds from one
    result of the collaborator. *)
Definition document_of (tool : string) (result : dict) : dict :=
  if String.eqb tool "vector_search" then vector_search_document result
  else search_document result.

(** What every run of the [try] block satisfies: it only appends to the
    operations invoked, writes no log record, raises what an operation
    raised, and returns, if it returns, one text block. *)
Definition well_behaved (w : World) (r : Outcome (list TextContent) * World)
    : Prop :=
  exists evs,
    backend_events (snd r) = (backend_events w ++ evs)%list
    /\ error_log (snd r) = error_log w
    /\ (forall ev e, ev ∈ evs -> ev_raised ev = Some e -> fst r = Raise e)
    /\ (forall l, fst r = Return l -> exists s, l = [text_content s]).

(** ** Test doubles *)

Definition empty_world : World := {| backend_events := []; error_log := [] |}.

Definition test_config : Config :=
  {| AZURE_SEARCH_ENDPOINT := Some "https://example.search.windows.net";
     AZURE_SEARCH_API_KEY := Some "secret";
     AZURE_SEARCH_INDEX := Some "products" |}.

Definition products_index : SearchIndex :=
  {| index_name := "products";
     index_fields :=
       Some [{| field_name := "id"; field_type := "Edm.String";
                field_searchable := Some false; field_filterable := None;
                field_sortable := None; field_facetable := None;
                field_key := Some true |}];
     index_semantic_search := None |}.

(** A stub that answers every request with the same canned data. *)
Definition stub_backend (documents : list dict) (count : Z) : Backend :=
  {| new_SearchClient := fun _ => None;
     new_SearchIndexClient := fun _ => None;
     client_search := fun _ _ _ => Return documents;
     client_list_indexes := fun _ => Return [products_index];
     client_get_index := fun _ _ => Return products_index;
     client_get_document := fun _ _ _ => Return (List.hd [] documents);
     client_get_document_count := fun _ => Return count |}.


Definition score (s : string) : value :=
  VFloat {| float_json := s; float_is_zero := false |}.

(** A document whose own fields include one named [_reranker_score]. *)
Definition scored_document : dict :=
  [("id", VStr "1"); ("_reranker_score", VInt 7);
   ("@search.score", score "0.5")].

Definition two_documents : list dict :=
  [[("id", VStr "1"); ("@search.score", score "1.5"); ("title", VStr "a")];
   [("@search.reranker_score", score "2.25"); ("id", VStr "2")]].

(** ** Vocabulary of the further properties *)

(** The SDK method an operation is a call of. *)
Definition operation (c : BackendCall) : string :=
  match c with
  | call_search _ _ _ => "search"
  | call_list_indexes _ => "list_indexes"
  | call_get_index _ _ => "get_index"
  | call_get_document _ _ _ => "get_document"
  | call_get_document_count _ => "get_document_count"
  end.

(** The SDK method the branch of [call_tool] for a tool name calls. *)
Definition tool_operation (tool : string) : option string :=
  if String.eqb tool "search" then Some "search"
  else if String.eqb tool "vector_search" then Some "search"
  else if String.eqb tool "list_indexes" then Some "list_indexes"
  else if String.eqb tool "get_index_schema" then Some "get_index"
  else if String.eqb tool "get_document" then Some "get_document"
  else if String.eqb tool "get_document_count" then Some "get_document_count"
  else None.

(** The [SearchClient] an operation was invoked on, if it was on one. *)
Definition search_client_of (c : BackendCall) : option SearchClient :=
  match c with
  | call_search client _ _ => Some client
  | call_get_document client _ _ => Some client
  | call_get_document_count client => Some client
  | _ => None
  end.

(** The [SearchIndexClient] an operation was invoked on, if it was on one. *)
Definition index_client_of (c : BackendCall) : option SearchIndexClient :=
  match c with
  | call_list_indexes client => Some client
  | call_get_index client _ => Some client
  | _ => None
  end.

(** The keyword arguments a [search] operation was passed. *)
Definition keyword_arguments (c : BackendCall) : dict :=
  match c with
  | call_search _ _ kwargs => kwargs
  | _ => []
  end.

(** The keys of a dictionary, in order. *)
Definition keys (d : dict) : list string := map fst d.

(** Whether a string holds the character [c]. *)
Fixpoint contains_char (c : ascii) (s : string) : bool :=
  match s with
  | EmptyString => false
  | String c' s' => Ascii.eqb c' c || contains_char c s'
  end.

(** The value of a lower-case hexadecimal digit. *)
Definition hex_value (c : ascii) : option nat :=
  let n := nat_of_ascii c in
  if ((48 <=? n) && (n <=? 57))%nat then Some (n - 48)%nat
  else if ((97 <=? n) && (n <=? 102))%nat then Some (n - 87)%nat
  else None.

(** Reading back the first character of the inside of a JSON string,
    as [json_escape] writes it: the character and the text after it.  A
    bare quote ends the string and is no character of it. *)
Definition json_unescape_first (s : string) : option (ascii * string) :=
  match s with
  | EmptyString => None
  | String c r =>
      let n := nat_of_ascii c in
      if (n =? 34)%nat then None
      else if (n =? 92)%nat then
        match r with
        | EmptyString => None
        | String x r' =>
            let m := nat_of_ascii x in
            if (m =? 34)%nat then Some (ascii_of_nat 34, r')
            else if (m =? 92)%nat then Some (ascii_of_nat 92, r')
            else if (m =? 110)%nat then Some (ascii_of_nat 10, r')
            else if (m =? 114)%nat then Some (ascii_of_nat 13, r')
            else if (m =? 116)%nat then Some (ascii_of_nat 9, r')
            else if (m =? 98)%nat then Some (ascii_of_nat 8, r')
            else if (m =? 102)%nat then Some (ascii_of_nat 12, r')
            else if (m =? 117)%nat then
              match r' with
              | String _ (String _ (String h1 (String h2 r''))) =>
                  match hex_value h1, hex_value h2 with
                  | Some a, Some b => Some (ascii_of_nat (16 * a + b), r'')
                  | _, _ => None
                  end
              | _ => None
              end
            else None
        end
      else Some (c, r)
  end.

(** ** Running the model on the test doubles *)

Example list_indexes_counts_fields :
  fst (call_tool test_config (stub_backend [] 0) "list_indexes" ∅ empty_world)
  = Return (content_result
      (VDict [("indexes",
                VList [VDict [("name", VStr "products");
                              ("fields_count", VInt 1)]])])).
Proof. reflexivity. Qed.

Example search_drops_service_keys :
  fst (call_tool test_config (stub_backend two_documents 0) "search"
         {[ "query" := VStr "x" ]} empty_world)
  = Return (content_result
      (results_payload
         [[("id", VStr "1"); ("title", VStr "a"); ("_score", score "1.5")];
          [("id", VStr "2"); ("_score", VNone)]])).
Proof. reflexivity. Qed.

Example document_count_text :
  fst (call_tool test_config (stub_backend [] 42) "get_document_count" ∅
         empty_world)
  = Return
      [text_content
         ("{" ++ newline
              ++ "  " ++ dquote ++ "index" ++ dquote ++ ": "
              ++ dquote ++ "products" ++ dquote ++ "," ++ newline
              ++ "  " ++ dquote ++ "document_count" ++ dquote ++ ": 42"
              ++ newline ++ "}")].
Proof. reflexivity. Qed.

Example bad_select_is_reported :
  call_tool test_config (stub_backend [] 0) "get_document"
    {[ "key" := VStr "1"; "select" := VInt 3 ]} empty_world
  = (Return (error_result "'int' object has no attribute 'split'"),
     {| backend_events := [];
        error_log := ["Error executing tool get_document: "
                        ++ "'int' object has no attribute 'split'"] |}).
Proof. reflexivity. Qed.

(** ** General facts about the monad and the handler *)

Lemma json_dumps_error msg :
  json_dumps false (error_payload msg)
  = Return (json_encode 0 (error_payload msg)).
Proof. reflexivity. Qed.

(** [call_tool] in terms of its [try] block. *)
Lemma call_tool_unfold cfg be name arguments w :
  call_tool cfg be name arguments w
  = match call_tool_body cfg be name arguments w with
    | (Return r, w') => (Return r, w')
    | (Raise e, w') =>
        (Return (error_result (exc_str e)),
         {| backend_events := backend_events w';
            error_log :=
              error_log w'
                ++ ["Error executing tool " ++ name ++ ": " ++ exc_str e] |})
    end.
Proof.
  unfold call_tool, try_except.
  destruct (call_tool_body cfg be name arguments w) as [[r|e] w']; reflexivity.
Qed.

Lemma events_during_app {A} (m : M A) w evs :
  backend_events (snd (m w)) = (backend_events w ++ evs)%list ->
  events_during m w = evs.
Proof.
  intros H. unfold events_during. rewrite H. apply drop_app_length.
Qed.

Lemma events_during_call_tool cfg be name arguments w :
  events_during (call_tool cfg be name arguments) w
  = events_during (call_tool_body cfg be name arguments) w.
Proof.
  unfold events_during. rewrite call_tool_unfold.
  destruct (call_tool_body cfg be name arguments w) as [[r|e] w']; reflexivity.
Qed.

(** The names [call_tool] dispatches on are the registered ones. *)
Lemma unknown_name name :
  name ∉ tool_names ->
  String.eqb name "search" = false
  /\ String.eqb name "vector_search" = false
  /\ String.eqb name "list_indexes" = false
  /\ String.eqb name "get_index_schema" = false
  /\ String.eqb name "get_document" = false
  /\ String.eqb name "get_document_count" = false.
Proof.
  intros H. repeat split; apply String.eqb_neq; intros ->; apply H;
    apply list_elem_of_In; simpl; tauto.
Qed.

Ltac run_tool :=
  unfold tool_search, tool_vector_search, tool_list_indexes,
    tool_get_index_schema, tool_get_document, tool_get_document_count,
    get_search_client, get_index_client, bind, ret, raise, lift, invoke;
  simpl.

(** Case analysis on a scrutinee that has no case analysis inside. *)
Ltac split_innermost x :=
  lazymatch x with
  | context [match ?y with _ => _ end] => split_innermost y
  | _ => destruct x eqn:?
  end.

Ltac split_outcomes :=
  repeat (match goal with
          | |- context [match ?x with _ => _ end] => split_innermost x
          end; simpl).

Ltac split_on_name name :=
  repeat (match goal with
          | |- context [String.eqb name ?s] =>
              destruct (String.eqb name s) eqn:?
          end).

Lemma well_behaved_silent w o :
  (forall l, o = Return l -> exists s, l = [text_content s]) ->
  well_behaved w (o, w).
Proof.
  intros H. exists []. simpl. rewrite app_nil_r. repeat split; auto.
  intros ev e Hin. inversion Hin.
Qed.

Lemma well_behaved_one w c e0 o :
  (forall e, e0 = Some e -> o = Raise e) ->
  (forall l, o = Return l -> exists s, l = [text_content s]) ->
  well_behaved w
    (o, {| backend_events :=
             (backend_events w ++ [{| ev_call := c; ev_raised := e0 |}])%list;
           error_log := error_log w |}).
Proof.
  intros H1 H2. eexists. simpl. repeat split; auto.
  intros ev e Hin He. apply list_elem_of_singleton in Hin. subst ev. auto.
Qed.

(** Every branch of the [try] block is well behaved. *)
Lemma call_tool_body_well_behaved cfg be name arguments w :
  well_behaved w (call_tool_body cfg be name arguments w).
Proof.
  unfold call_tool_body. split_on_name name.
  all: run_tool; split_outcomes.
  all: try (apply well_behaved_silent; intros; simplify_eq; eauto; fail).
  all: apply well_behaved_one; intros; simplify_eq; eauto.
Qed.


(** *** Dictionaries *)

Lemma has_key_dict_set_eq k v d : has_key k (dict_set k v d) = true.
Proof.
  unfold has_key. induction d as [|[k' v'] d IH]; simpl.
  - rewrite String.eqb_refl. reflexivity.
  - destruct (String.eqb k k') eqn:E; simpl; rewrite E; auto.
Qed.

Lemma dict_lookup_dict_set_ne k k0 v d :
  k <> k0 -> dict_lookup k (dict_set k0 v d) = dict_lookup k d.
Proof.
  intros Hne. induction d as [|[k' v'] d IH]; simpl.
  - apply String.eqb_neq in Hne. rewrite Hne. reflexivity.
  - destruct (String.eqb k0 k') eqn:E; simpl.
    + apply String.eqb_eq in E. subst k'.
      apply String.eqb_neq in Hne. rewrite Hne. reflexivity.
    + rewrite IH. reflexivity.
Qed.

Lemma has_key_dict_set_ne k k0 v d :
  k <> k0 -> has_key k (dict_set k0 v d) = has_key k d.
Proof. intros H. unfold has_key. rewrite dict_lookup_dict_set_ne; auto. Qed.

Lemma dict_lookup_filter (keep : string -> bool) k d :
  keep k = true ->
  dict_lookup k (List.filter (fun kv => keep (fst kv)) d) = dict_lookup k d.
Proof.
  intros Hk. induction d as [|[k' v'] d IH]; simpl; auto.
  destruct (keep k') eqn:E; simpl.
  - rewrite IH. reflexivity.
  - destruct (String.eqb k k') eqn:E'; auto.
    apply String.eqb_eq in E'. congruence.
Qed.



(** *** The two search tools *)

Ltac settle_events :=
  rewrite ?drop_app_length, ?drop_all;
  let Hin := fresh "Hin" in
  let Hcall := fresh "Hcall" in
  intros Hin Hcall;
  first [ solve [inversion Hin]
        | apply list_elem_of_singleton in Hin; subst; simpl in Hcall;
          simplify_eq ].

(** The answer of [search]: the records built from what the collaborator
    returned for the operation that was invoked. *)
Lemma search_answer cfg be arguments w ev c q kw results :
  ev ∈ events_during (call_tool cfg be "search" arguments) w ->
  ev_call ev = call_search c q kw ->
  client_search be c q kw = Return results ->
  fst (call_tool cfg be "search" arguments w)
  = Return (content_result (results_payload (map search_document results))).
Proof.
  rewrite events_during_call_tool, call_tool_unfold.
  change (call_tool_body cfg be "search" arguments)
    with (tool_search cfg be arguments).
  unfold events_during. run_tool. split_outcomes.
  all: settle_events; intros Hans; unfold content_result; congruence.
Qed.

Lemma vector_search_answer cfg be arguments w ev c q kw results :
  ev ∈ events_during (call_tool cfg be "vector_search" arguments) w ->
  ev_call ev = call_search c q kw ->
  client_search be c q kw = Return results ->
  fst (call_tool cfg be "vector_search" arguments w)
  = Return (content_result
      (results_payload (map vector_search_document results))).
Proof.
  rewrite events_during_call_tool, call_tool_unfold.
  change (call_tool_body cfg be "vector_search" arguments)
    with (tool_vector_search cfg be arguments).
  unfold events_during. run_tool. split_outcomes.
  all: settle_events; intros Hans; unfold content_result; congruence.
Qed.

Lemma search_tools_answer cfg be tool arguments w ev c q kw results :
  tool ∈ ["search"; "vector_search"] ->
  ev ∈ events_during (call_tool cfg be tool arguments) w ->
  ev_call ev = call_search c q kw ->
  client_search be c q kw = Return results ->
  fst (call_tool cfg be tool arguments w)
  = Return (content_result (results_payload (map (document_of tool) results))).
Proof.
  intros Htool. apply list_elem_of_In in Htool.
  destruct Htool as [<-|[<-|[]]].
  - apply search_answer.
  - apply vector_search_answer.
Qed.

(** ** The claims *)


(** C3. A name that is not one of the six registered names makes
    [call_tool] return the error envelope with the message
    [Unknown tool: <name>]; no operation is invoked on the collaborator
    and the failure is logged. *)
Theorem unknown_tool_is_an_error_result cfg be name arguments w :
  name ∉ tool_names ->
  call_tool cfg be name arguments w
  = (Return (error_result ("Unknown tool: " ++ name)),
     {| backend_events := backend_events w;
        error_log :=
          error_log w
            ++ ["Error executing tool " ++ name ++ ": "
                  ++ "Unknown tool: " ++ name] |}).
Proof.
  intros H. apply unknown_name in H as (H1 & H2 & H3 & H4 & H5 & H6).
  rewrite call_tool_unfold. unfold call_tool_body.
  rewrite H1, H2, H3, H4, H5, H6. reflexivity.
Qed.

Lemma unknown_tool_is_an_error_result_witness :
  call_tool test_config (stub_backend [] 0) "delete_index"
    {[ "index_name" := VStr "products" ]} empty_world
  = (Return (error_result "Unknown tool: delete_index"),
     {| backend_events := [];
        error_log :=
          ["Error executing tool delete_index: Unknown tool: delete_index"] |}).
Proof.
  apply (unknown_tool_is_an_error_result test_config (stub_backend [] 0)
           "delete_index" {[ "index_name" := VStr "products" ]} empty_world).
  vm_compute. intros H. apply list_elem_of_In in H. simpl in H.
  repeat (destruct H as [H|H]; [discriminate H|]). exact H.
Defined.

(** C7. [list_tools] returns the same six descriptors, in declaration
    order, from every world, and leaves the world as it found it. *)
Theorem list_tools_is_constant w :
  list_tools w = (Return tool_descriptors, w)
  /\ map name tool_descriptors
     = ["search"; "vector_search"; "list_indexes"; "get_index_schema";
        "get_document"; "get_document_count"]
  /\ (forall w', fst (list_tools w') = fst (list_tools w))
  /\ list_tools (snd (list_tools w)) = list_tools w.
Proof. repeat split. Qed.

(** C4. When the collaborator answers the full-text search that a call
    of [search] without [select] and [filter] invokes (the query as
    search text, [top] as the only option) with N documents, the call
    returns the payload whose [count] is N and whose N document records
    all carry a [_score] field. *)
Theorem search_counts_and_scores cfg be arguments w q results N :
  arguments !! "query" = Some q ->
  arguments !! "select" = None ->
  arguments !! "filter" = None ->
  new_SearchClient be (search_client_for cfg (arg_get arguments "index_name"))
  = None ->
  client_search be (search_client_for cfg (arg_get arguments "index_name")) q
    [("top", arg_get_default arguments "top" (VInt 10))]
  = Return results ->
  List.length results = N ->
  exists documents,
    fst (call_tool cfg be "search" arguments w)
    = Return (content_result
        (VDict [("results", VList (map VDict documents));
                ("count", VInt (Z.of_nat N))]))
    /\ List.length documents = N
    /\ forall doc, doc ∈ documents -> has_key "_score" doc = true.
Proof.
  intros Hq Hsel Hfil Hnew Hans HN.
  exists (map search_document results). split; [|split].
  - rewrite call_tool_unfold.
    change (call_tool_body cfg be "search" arguments)
      with (tool_search cfg be arguments).
    assert (arg_get arguments "query" = q) as Eq
      by (unfold arg_get; rewrite Hq; reflexivity).
    assert (arg_get arguments "select" = VNone) as Es
      by (unfold arg_get; rewrite Hsel; reflexivity).
    assert (arg_get arguments "filter" = VNone) as Ef
      by (unfold arg_get; rewrite Hfil; reflexivity).
    run_tool. rewrite Hnew, Es, Ef, Eq. simpl. rewrite Hans. simpl.
    unfold content_result, results_payload.
    rewrite length_map, HN. reflexivity.
  - rewrite length_map. exact HN.
  - intros doc Hin. apply list_elem_of_fmap in Hin as (result & -> & _).
    apply has_key_dict_set_eq.
Qed.

Lemma search_counts_and_scores_witness :
  exists documents,
    fst (call_tool test_config (stub_backend two_documents 0) "search"
           {[ "query" := VStr "azure" ]} empty_world)
    = Return (content_result
        (VDict [("results", VList (map VDict documents));
                ("count", VInt 2)]))
    /\ List.length documents = 2%nat
    /\ forall doc, doc ∈ documents -> has_key "_score" doc = true.
Proof.
  apply (search_counts_and_scores test_config (stub_backend two_documents 0)
           {[ "query" := VStr "azure" ]} empty_world (VStr "azure")
           two_documents 2); reflexivity.
Defined.

(** C5, as the specification states it, fails: [search] keeps every field
    of a result whose name does not start with [@], so a document that
    has a field named [_reranker_score] keeps it. *)
Lemma search_keeps_a_reranker_score_field :
  fst (call_tool test_config (stub_backend [scored_document] 0) "search"
         {[ "query" := VStr "azure" ]} empty_world)
  = Return (content_result
      (results_payload
         [[("id", VStr "1"); ("_reranker_score", VInt 7);
           ("_score", score "0.5")]]))
  /\ has_key "_reranker_score"
       [("id", VStr "1"); ("_reranker_score", VInt 7);
        ("_score", score "0.5")] = true.
Proof. split; reflexivity. Qed.

(** C5, amended. Both search tools return the records built from the
    collaborator's results; each record of [vector_search] carries a
    [_reranker_score] field, and a record of [search] carries one exactly
    when the result it was built from has a field of that name: [search]
    never adds the field. *)
Theorem reranker_score_only_from_vector_search
    cfg be tool arguments w ev c q kw results :
  tool ∈ ["search"; "vector_search"] ->
  ev ∈ events_during (call_tool cfg be tool arguments) w ->
  ev_call ev = call_search c q kw ->
  client_search be c q kw = Return results ->
  fst (call_tool cfg be tool arguments w)
  = Return (content_result (results_payload (map (document_of tool) results)))
  /\ forall result,
       result ∈ results ->
       has_key "_reranker_score" (document_of tool result)
       = (String.eqb tool "vector_search"
          || has_key "_reranker_score" result).
Proof.
  intros Htool Hin Hcall Hans. split.
  - eapply search_tools_answer; eauto.
  - intros result _. apply list_elem_of_In in Htool.
    destruct Htool as [<-|[<-|[]]]; unfold document_of; simpl.
    + unfold search_document.
      rewrite has_key_dict_set_ne by discriminate.
      unfold has_key.
      rewrite (dict_lookup_filter (fun k => negb (startswith "@" k)));
        reflexivity.
    + apply has_key_dict_set_eq.
Qed.

Lemma reranker_score_only_from_vector_search_witness :
  fst (call_tool test_config (stub_backend two_documents 0) "vector_search"
         {[ "query" := VStr "azure" ]} empty_world)
  = Return (content_result
      (results_payload (map (document_of "vector_search") two_documents)))
  /\ forall result,
       result ∈ two_documents ->
       has_key "_reranker_score" (document_of "vector_search" result)
       = (String.eqb "vector_search" "vector_search"
          || has_key "_reranker_score" result).
Proof.
  apply (reranker_score_only_from_vector_search test_config
           (stub_backend two_documents 0) "vector_search"
           {[ "query" := VStr "azure" ]} empty_world
           {| ev_call :=
                call_search (search_client_for test_config VNone)
                  (VStr "azure")
                  [("top", VInt 10); ("query_type", VStr "semantic");
                   ("semantic_configuration_name", VStr "default")];
              ev_raised := None |}
           (search_client_for test_config VNone) (VStr "azure")
           [("top", VInt 10); ("query_type", VStr "semantic");
            ("semantic_configuration_name", VStr "default")]
           two_documents).
  - apply list_elem_of_In. simpl. tauto.
  - vm_compute. apply list_elem_of_here.
  - reflexivity.
  - reflexivity.
Defined.



(** C6. When [index_name] is absent from the arguments and a default
    index is configured, [get_document_count] counts the documents of
    the default index (the client is built for it) and returns the
    payload naming that index next to the count the collaborator
    reported. *)
Theorem document_count_uses_default_index cfg be arguments w default n :
  arguments !! "index_name" = None ->
  AZURE_SEARCH_INDEX cfg = Some default ->
  new_SearchClient be (search_client_for cfg VNone) = None ->
  client_get_document_count be (search_client_for cfg VNone) = Return n ->
  sc_index_name (search_client_for cfg VNone) = VStr default
  /\ call_tool cfg be "get_document_count" arguments w
     = (Return (content_result
          (VDict [("index", VStr default); ("document_count", VInt n)])),
        {| backend_events :=
             backend_events w
               ++ [{| ev_call :=
                        call_get_document_count (search_client_for cfg VNone);
                      ev_raised := None |}];
           error_log := error_log w |}).
Proof.
  intros Harg Hdefault Hnew Hcount.
  assert (arg_get arguments "index_name" = VNone) as Ei
    by (unfold arg_get; rewrite Harg; reflexivity).
  split.
  - unfold search_client_for. simpl. rewrite Hdefault. reflexivity.
  - rewrite call_tool_unfold.
    change (call_tool_body cfg be "get_document_count" arguments)
      with (tool_get_document_count cfg be arguments).
    run_tool. rewrite Ei, Hnew. simpl. rewrite Hcount. simpl.
    rewrite Hdefault. reflexivity.
Qed.

Lemma document_count_uses_default_index_witness :
  sc_index_name (search_client_for test_config VNone) = VStr "products"
  /\ call_tool test_config (stub_backend [] 42) "get_document_count" ∅
       empty_world
     = (Return (content_result
          (VDict [("index", VStr "products"); ("document_count", VInt 42)])),
        {| backend_events :=
             [{| ev_call :=
                   call_get_document_count
                     (search_client_for test_config VNone);
                 ev_raised := None |}];
           error_log := [] |}).
Proof.
  apply (document_count_uses_default_index test_config (stub_backend [] 42)
           ∅ empty_world "products" 42); reflexivity.
Defined.

(** Replace every read of [a] by the read the agreement [H] equates it
    with. *)
Ltac read_alike H a :=
  repeat match goal with
         | |- context [arg_get a ?k] =>
             destruct (H k) as [-> _]; [simpl; tauto|]
         | |- context [arg_get_default a ?k _] =>
             destruct (H k) as [_ ->]; [simpl; tauto|]
         end.

(** C8. Two argument dictionaries that agree on every parameter the
    descriptor of the tool declares make [call_tool] return the same
    list and leave the same world: keys the descriptor does not declare
    are never read.  For a name without a descriptor nothing is read at
    all. *)
Theorem undeclared_arguments_do_not_interfere cfg be tool
    (a1 a2 : gmap string value) w :
  Forall (fun k => a1 !! k = a2 !! k) (parameters_of tool) ->
  call_tool cfg be tool a1 w = call_tool cfg be tool a2 w.
Proof.
  intros Hagree.
  assert (forall k, In k (parameters_of tool) ->
            arg_get a1 k = arg_get a2 k
            /\ forall d, arg_get_default a1 k d = arg_get_default a2 k d)
    as H.
  { intros k Hk. unfold arg_get, arg_get_default.
    rewrite Forall_forall in Hagree.
    rewrite (Hagree k); auto. apply list_elem_of_In; auto. }
  clear Hagree.
  rewrite !call_tool_unfold. unfold call_tool_body.
  split_on_name tool; try reflexivity.
  all: match goal with
       | E : String.eqb ?x _ = true |- _ =>
           apply String.eqb_eq in E; subst x
       end.
  all: unfold tool_search, tool_vector_search, tool_get_index_schema,
         tool_get_document, tool_get_document_count.
  all: read_alike H a1; reflexivity.
Qed.

Lemma undeclared_arguments_do_not_interfere_witness :
  call_tool test_config (stub_backend two_documents 0) "search"
    {[ "query" := VStr "azure" ]} empty_world
  = call_tool test_config (stub_backend two_documents 0) "search"
      {[ "query" := VStr "azure"; "verbose" := VBool true ]} empty_world.
Proof.
  apply (undeclared_arguments_do_not_interfere test_config
           (stub_backend two_documents 0) "search"
           {[ "query" := VStr "azure" ]}
           {[ "query" := VStr "azure"; "verbose" := VBool true ]}
           empty_world).
  repeat constructor.
Defined.

(** *** Reading a dictionary that was changed at one key *)

Lemma arg_get_delete_ne (a : gmap string value) k0 k :
  k0 <> k ->
  arg_get (delete k0 a) k = arg_get a k
  /\ forall d, arg_get_default (delete k0 a) k d = arg_get_default a k d.
Proof.
  intros Hne. unfold arg_get, arg_get_default.
  rewrite lookup_delete_ne by exact Hne. auto.
Qed.

Lemma arg_get_delete_eq (a : gmap string value) k :
  arg_get (delete k a) k = VNone.
Proof. unfold arg_get. rewrite lookup_delete_eq. reflexivity. Qed.

(** Reads of [delete k0 a] at other keys are reads of [a]. *)
Ltac read_through a k0 :=
  repeat match goal with
         | |- context [arg_get (delete k0 a) ?k] =>
             rewrite (proj1 (arg_get_delete_ne a k0 k ltac:(discriminate)))
         | |- context [arg_get_default (delete k0 a) ?k ?d] =>
             rewrite (proj2 (arg_get_delete_ne a k0 k ltac:(discriminate)) d)
         end.

(** C9. For [search], [vector_search] and [get_document], a [select]
    that is the empty string is falsy, so the call returns what the call
    without [select] returns, leaves the same world, and the operation it
    invokes is sent no field projection. *)
Theorem empty_select_is_no_select cfg be tool
    (arguments : gmap string value) w :
  tool ∈ ["search"; "vector_search"; "get_document"] ->
  arguments !! "select" = Some (VStr "") ->
  call_tool cfg be tool arguments w
  = call_tool cfg be tool (delete "select" arguments) w
  /\ forall ev,
       ev ∈ events_during (call_tool cfg be tool arguments) w ->
       projection (ev_call ev) = None.
Proof.
  intros Htool Hsel.
  assert (arg_get arguments "select" = VStr "") as Es
    by (unfold arg_get; rewrite Hsel; reflexivity).
  apply list_elem_of_In in Htool.
  split.
  - rewrite !call_tool_unfold.
    destruct Htool as [<-|[<-|[<-|[]]]].
    + change (call_tool_body cfg be "search") with (tool_search cfg be).
      unfold tool_search.
      rewrite arg_get_delete_eq, Es. read_through arguments "select".
      reflexivity.
    + change (call_tool_body cfg be "vector_search")
        with (tool_vector_search cfg be).
      unfold tool_vector_search.
      rewrite arg_get_delete_eq, Es. read_through arguments "select".
      reflexivity.
    + change (call_tool_body cfg be "get_document")
        with (tool_get_document cfg be).
      unfold tool_get_document.
      rewrite arg_get_delete_eq, Es. read_through arguments "select".
      reflexivity.
  - rewrite events_during_call_tool. unfold events_during.
    destruct Htool as [<-|[<-|[<-|[]]]].
    + change (call_tool_body cfg be "search") with (tool_search cfg be).
      run_tool. rewrite Es. simpl. split_outcomes.
      all: rewrite ?drop_app_length, ?drop_all; intros ev Hin.
      all: first [ solve [inversion Hin]
                 | apply list_elem_of_singleton in Hin; subst ev;
                   reflexivity ].
    + change (call_tool_body cfg be "vector_search")
        with (tool_vector_search cfg be).
      run_tool. rewrite Es. simpl. split_outcomes.
      all: rewrite ?drop_app_length, ?drop_all; intros ev Hin.
      all: first [ solve [inversion Hin]
                 | apply list_elem_of_singleton in Hin; subst ev;
                   reflexivity ].
    + change (call_tool_body cfg be "get_document")
        with (tool_get_document cfg be).
      run_tool. rewrite Es. simpl. split_outcomes.
      all: rewrite ?drop_app_length, ?drop_all; intros ev Hin.
      all: first [ solve [inversion Hin]
                 | apply list_elem_of_singleton in Hin; subst ev;
                   reflexivity ].
Qed.

Lemma empty_select_is_no_select_witness :
  call_tool test_config (stub_backend two_documents 0) "get_document"
    {[ "key" := VStr "1"; "select" := VStr "" ]} empty_world
  = call_tool test_config (stub_backend two_documents 0) "get_document"
      (delete "select" {[ "key" := VStr "1"; "select" := VStr "" ]})
      empty_world
  /\ forall ev,
       ev ∈ events_during
              (call_tool test_config (stub_backend two_documents 0)
                 "get_document" {[ "key" := VStr "1"; "select" := VStr "" ]})
              empty_world ->
       projection (ev_call ev) = None.
Proof.
  apply (empty_select_is_no_select test_config (stub_backend two_documents 0)
           "get_document" {[ "key" := VStr "1"; "select" := VStr "" ]}
           empty_world).
  - apply list_elem_of_In. simpl. tauto.
  - reflexivity.
Defined.

(** *** Required parameters *)





Ltac enter_tool :=
  repeat match goal with
         | |- context [call_tool_body ?cfg ?be "search"] =>
             change (call_tool_body cfg be "search")
               with (tool_search cfg be)
         | |- context [call_tool_body ?cfg ?be "vector_search"] =>
             change (call_tool_body cfg be "vector_search")
               with (tool_vector_search cfg be)
         | |- context [call_tool_body ?cfg ?be "get_index_schema"] =>
             change (call_tool_body cfg be "get_index_schema")
               with (tool_get_index_schema cfg be)
         | |- context [call_tool_body ?cfg ?be "get_document"] =>
             change (call_tool_body cfg be "get_document")
               with (tool_get_document cfg be)
         end.



(** ** Further properties of [call_tool] *)

(** X1. A call writes a log record exactly when its [try] block raised:
    one record, naming the tool and the message that the error envelope
    carries; a call whose [try] block returned writes none. *)
Theorem errors_are_logged_once cfg be name arguments w :
  match fst (call_tool_body cfg be name arguments w) with
  | Raise e =>
      fst (call_tool cfg be name arguments w)
      = Return (error_result (exc_str e))
      /\ error_log (snd (call_tool cfg be name arguments w))
         = (error_log w
              ++ [("Error executing tool " ++ name ++ ": "
                     ++ exc_str e)%string])%list
  | Return r =>
      fst (call_tool cfg be name arguments w) = Return r
      /\ error_log (snd (call_tool cfg be name arguments w)) = error_log w
  end.
Proof.
  destruct (call_tool_body_well_behaved cfg be name arguments w)
    as (evs & _ & Hlog & _ & _).
  rewrite call_tool_unfold.
  destruct (call_tool_body cfg be name arguments w) as [[r|e] w'];
    simpl in *; rewrite Hlog; split; reflexivity.
Qed.

(** The [try] block appends at most one operation to the history. *)
Lemma call_tool_body_events cfg be name arguments w :
  exists evs,
    backend_events (snd (call_tool_body cfg be name arguments w))
    = (backend_events w ++ evs)%list
    /\ (List.length evs <= 1)%nat.
Proof.
  unfold call_tool_body. split_on_name name.
  all: run_tool; split_outcomes.
  all: first [ exists []; simpl; rewrite app_nil_r; split; [reflexivity|lia]
             | eexists [_]; simpl; split; [reflexivity|lia] ].
Qed.

(** X2. A call invokes at most one operation on the collaborator, and
    the operations invoked before it stay in the history as they were. *)
Theorem at_most_one_operation cfg be name arguments w :
  backend_events (snd (call_tool cfg be name arguments w))
  = (backend_events w
       ++ events_during (call_tool cfg be name arguments) w)%list
  /\ (List.length (events_during (call_tool cfg be name arguments) w)
      <= 1)%nat.
Proof.
  destruct (call_tool_body_events cfg be name arguments w)
    as (evs & Hev & Hlen).
  rewrite events_during_call_tool.
  rewrite (events_during_app _ _ _ Hev).
  rewrite call_tool_unfold.
  destruct (call_tool_body cfg be name arguments w) as [[r|e] w'];
    simpl in *; auto.
Qed.

(** X3. The only operation a tool invokes is the one of its own branch:
    [search] for the two search tools, [list_indexes], [get_index],
    [get_document] and [get_document_count] for the others, and none at
    all for a name that is not registered. *)
Theorem tools_invoke_their_own_operation cfg be tool arguments w ev :
  ev ∈ events_during (call_tool cfg be tool arguments) w ->
  tool_operation tool = Some (operation (ev_call ev)).
Proof.
  rewrite events_during_call_tool. unfold events_during, call_tool_body,
    tool_operation.
  split_on_name tool.
  all: run_tool; split_outcomes.
  all: rewrite ?drop_app_length, ?drop_all; intros Hin.
  all: first [ solve [inversion Hin]
             | apply list_elem_of_singleton in Hin; subst ev; reflexivity ].
Qed.

Lemma tools_invoke_their_own_operation_witness :
  tool_operation "get_document_count"
  = Some (operation
            (ev_call
               {| ev_call :=
                    call_get_document_count
                      (search_client_for test_config VNone);
                  ev_raised := None |})).
Proof.
  apply (tools_invoke_their_own_operation test_config (stub_backend [] 42)
           "get_document_count" ∅ empty_world).
  vm_compute. apply list_elem_of_here.
Defined.

(** X4. A registered tool reaches the collaborator: when the SDK client
    can be built and [select] is falsy or a string, the call invokes
    exactly one operation. *)
Theorem registered_tools_reach_the_backend cfg be tool
    (arguments : gmap string value) w :
  tool ∈ tool_names ->
  new_SearchClient be
    (search_client_for cfg (arg_get arguments "index_name")) = None ->
  new_SearchIndexClient be (index_client cfg) = None ->
  (truthy (arg_get arguments "select") = true ->
   exists s, arg_get arguments "select" = VStr s) ->
  exists ev,
    events_during (call_tool cfg be tool arguments) w = [ev]
    /\ tool_operation tool = Some (operation (ev_call ev)).
Proof.
  intros Htool Hnew Hnew' Hsel.
  apply list_elem_of_In in Htool. simpl in Htool.
  rewrite events_during_call_tool. unfold events_during.
  destruct Htool as [<-|[<-|[<-|[<-|[<-|[<-|[]]]]]]].
  all: unfold call_tool_body; simpl String.eqb; cbv iota.
  all: run_tool; rewrite ?Hnew, ?Hnew'; simpl.
  all: destruct (truthy (arg_get arguments "select")) eqn:Et;
         [destruct (Hsel eq_refl) as [s Hs]; rewrite ?Hs|]; simpl.
  all: split_outcomes; rewrite ?drop_app_length.
  all: eexists; split; reflexivity.
Qed.

Lemma registered_tools_reach_the_backend_witness :
  exists ev,
    events_during
      (call_tool test_config (stub_backend [] 0) "list_indexes" ∅)
      empty_world = [ev]
    /\ tool_operation "list_indexes" = Some (operation (ev_call ev)).
Proof.
  apply (registered_tools_reach_the_backend test_config (stub_backend [] 0)
           "list_indexes" ∅ empty_world).
  - apply list_elem_of_In. simpl. tauto.
  - reflexivity.
  - reflexivity.
  - intros H. discriminate H.
Defined.



(** X6. When the SDK refuses to build the client a tool needs, the call
    returns the error envelope with the constructor's message and asks
    nothing of the collaborator. *)
Theorem client_construction_failure_is_reported cfg be tool
    (arguments : gmap string value) w e :
  (tool ∈ ["search"; "vector_search"; "get_document"; "get_document_count"]
   /\ new_SearchClient be
        (search_client_for cfg (arg_get arguments "index_name")) = Some e)
  \/ (tool ∈ ["list_indexes"; "get_index_schema"]
      /\ new_SearchIndexClient be (index_client cfg) = Some e) ->
  call_tool cfg be tool arguments w
  = (Return (error_result (exc_str e)),
     {| backend_events := backend_events w;
        error_log :=
          (error_log w
             ++ [("Error executing tool " ++ tool ++ ": "
                    ++ exc_str e)%string])%list |}).
Proof.
  intros [[Htool Hnew]|[Htool Hnew]]; apply list_elem_of_In in Htool;
    simpl in Htool; rewrite call_tool_unfold.
  - destruct Htool as [<-|[<-|[<-|[<-|[]]]]].
    all: unfold call_tool_body; simpl String.eqb; cbv iota.
    all: run_tool; rewrite Hnew; reflexivity.
  - destruct Htool as [<-|[<-|[]]].
    all: unfold call_tool_body; simpl String.eqb; cbv iota.
    all: run_tool; rewrite Hnew; reflexivity.
Qed.

(** A configuration without an endpoint, and an SDK that refuses it. *)
Lemma client_construction_failure_is_reported_witness :
  call_tool test_config
    {| new_SearchClient :=
         fun _ => Some (ValueError "Endpoint URL must be a string.");
       new_SearchIndexClient := fun _ => None;
       client_search := fun _ _ _ => Return [];
       client_list_indexes := fun _ => Return [];
       client_get_index := fun _ _ => Return products_index;
       client_get_document := fun _ _ _ => Return [];
       client_get_document_count := fun _ => Return 0%Z |}
    "get_document" {[ "key" := VStr "1" ]} empty_world
  = (Return (error_result
       (exc_str (ValueError "Endpoint URL must be a string."))),
     {| backend_events := backend_events empty_world;
        error_log :=
          (error_log empty_world
             ++ [("Error executing tool " ++ "get_document" ++ ": "
                    ++ exc_str
                         (ValueError "Endpoint URL must be a string."))%string
                ])%list |}).
Proof.
  apply (client_construction_failure_is_reported test_config _
           "get_document" {[ "key" := VStr "1" ]} empty_world
           (ValueError "Endpoint URL must be a string.")).
  left. split.
  - apply list_elem_of_In. simpl. tauto.
  - reflexivity.
Defined.

(** Whatever holds of the operations a tool can invoke on the clients
    [get_search_client] and [get_index_client] build holds of every
    operation a call invokes. *)
Lemma invoked_on_built_clients cfg be tool (arguments : gmap string value)
    w ev (P : BackendCall -> Prop) :
  (forall q kw,
     P (call_search
          (search_client_for cfg (arg_get arguments "index_name")) q kw)) ->
  (forall k f,
     P (call_get_document
          (search_client_for cfg (arg_get arguments "index_name")) k f)) ->
  P (call_get_document_count
       (search_client_for cfg (arg_get arguments "index_name"))) ->
  P (call_list_indexes (index_client cfg)) ->
  (forall n, P (call_get_index (index_client cfg) n)) ->
  ev ∈ events_during (call_tool cfg be tool arguments) w ->
  P (ev_call ev).
Proof.
  intros P1 P2 P3 P4 P5.
  rewrite events_during_call_tool. unfold events_during, call_tool_body.
  split_on_name tool.
  all: run_tool; split_outcomes.
  all: rewrite ?drop_app_length, ?drop_all; intros Hin.
  all: try solve [inversion Hin].
  all: apply list_elem_of_singleton in Hin; subst ev; simpl; auto.
Qed.

(** X7. Every operation is invoked on a client built from the
    configuration: the configured endpoint, the API key as credential
    when one is configured and not empty and the ambient credential
    otherwise, and, for a [SearchClient], the [index_name] argument when
    it is truthy and the configured default index otherwise (so an empty
    [index_name] selects the default index too). *)
Theorem operations_use_the_configured_client cfg be tool
    (arguments : gmap string value) w ev :
  ev ∈ events_during (call_tool cfg be tool arguments) w ->
  let credential :=
    match AZURE_SEARCH_API_KEY cfg with
    | Some key =>
        if String.eqb key "" then DefaultAzureCredential
        else AzureKeyCredential key
    | None => DefaultAzureCredential
    end in
  let index := arg_get arguments "index_name" in
  match ev_call ev with
  | call_search c _ _ | call_get_document c _ _ | call_get_document_count c =>
      c = {| sc_endpoint := AZURE_SEARCH_ENDPOINT cfg;
             sc_index_name :=
               if truthy index then index
               else of_getenv (AZURE_SEARCH_INDEX cfg);
             sc_credential := credential |}
  | call_list_indexes c | call_get_index c _ =>
      c = {| ic_endpoint := AZURE_SEARCH_ENDPOINT cfg;
             ic_credential := credential |}
  end.
Proof.
  intros Hin credential index.
  apply (invoked_on_built_clients cfg be tool arguments w ev); auto.
Qed.

Lemma operations_use_the_configured_client_witness :
  search_client_for test_config (VStr "")
  = {| sc_endpoint := Some "https://example.search.windows.net";
       sc_index_name := VStr "products";
       sc_credential := AzureKeyCredential "secret" |}.
Proof.
  refine (operations_use_the_configured_client test_config
            (stub_backend two_documents 0) "search"
            {[ "query" := VStr "azure"; "index_name" := VStr "" ]}
            empty_world
            {| ev_call :=
                 call_search (search_client_for test_config (VStr ""))
                   (VStr "azure") [("top", VInt 10)];
               ev_raised := None |} _).
  vm_compute. apply list_elem_of_here.
Defined.

(** *** What the search tools pass on *)

(** The operation [search] invokes. *)
Lemma search_invocation cfg be (arguments : gmap string value) w ev :
  ev ∈ events_during (call_tool cfg be "search" arguments) w ->
  ev_call ev
  = call_search (search_client_for cfg (arg_get arguments "index_name"))
      (arg_get arguments "query")
      ([("top", arg_get_default arguments "top" (VInt 10))]
         ++ (if truthy (arg_get arguments "select")
             then match py_split (arg_get arguments "select") with
                  | Return fields => [("select", fields)]
                  | Raise _ => []
                  end
             else [])
         ++ (if truthy (arg_get arguments "filter")
             then [("filter", arg_get arguments "filter")]
             else []))%list.
Proof.
  rewrite events_during_call_tool. enter_tool. unfold events_during.
  run_tool; split_outcomes.
  all: rewrite ?drop_app_length, ?drop_all; intros Hin.
  all: try solve [inversion Hin].
  all: apply list_elem_of_singleton in Hin; subst ev; reflexivity.
Qed.

(** The operation [vector_search] invokes. *)
Lemma vector_search_invocation cfg be (arguments : gmap string value) w ev :
  ev ∈ events_during (call_tool cfg be "vector_search" arguments) w ->
  ev_call ev
  = call_search (search_client_for cfg (arg_get arguments "index_name"))
      (arg_get arguments "query")
      ([("top", arg_get_default arguments "top" (VInt 10));
        ("query_type", VStr "semantic");
        ("semantic_configuration_name",
          py_or (arg_get arguments "semantic_configuration")
            (VStr "default"))]
         ++ (if truthy (arg_get arguments "select")
             then match py_split (arg_get arguments "select") with
                  | Return fields => [("select", fields)]
                  | Raise _ => []
                  end
             else []))%list.
Proof.
  rewrite events_during_call_tool. enter_tool. unfold events_during.
  run_tool; split_outcomes.
  all: rewrite ?drop_app_length, ?drop_all; intros Hin.
  all: try solve [inversion Hin].
  all: apply list_elem_of_singleton in Hin; subst ev; reflexivity.
Qed.

(** The operation [get_document] invokes. *)
Lemma get_document_invocation cfg be (arguments : gmap string value) w ev :
  ev ∈ events_during (call_tool cfg be "get_document" arguments) w ->
  ev_call ev
  = call_get_document
      (search_client_for cfg (arg_get arguments "index_name"))
      (arg_get arguments "key")
      (if truthy (arg_get arguments "select")
       then match py_split (arg_get arguments "select") with
            | Return fields => fields
            | Raise _ => VNone
            end
       else VNone).
Proof.
  rewrite events_during_call_tool. enter_tool. unfold events_during.
  run_tool; split_outcomes.
  all: rewrite ?drop_app_length, ?drop_all; intros Hin.
  all: try solve [inversion Hin].
  all: apply list_elem_of_singleton in Hin; subst ev; reflexivity.
Qed.

(** X8. The result limit the two search tools pass on is the [top]
    argument as it is, whatever its value, and 10 when the arguments
    have none. *)
Theorem top_is_passed_through cfg be tool
    (arguments : gmap string value) w ev :
  tool ∈ ["search"; "vector_search"] ->
  ev ∈ events_during (call_tool cfg be tool arguments) w ->
  dict_lookup "top" (keyword_arguments (ev_call ev))
  = Some (match arguments !! "top" with
          | Some top => top
          | None => VInt 10
          end).
Proof.
  intros Htool Hin. apply list_elem_of_In in Htool.
  destruct Htool as [<-|[<-|[]]].
  - rewrite (search_invocation _ _ _ _ _ Hin). reflexivity.
  - rewrite (vector_search_invocation _ _ _ _ _ Hin). reflexivity.
Qed.

Lemma top_is_passed_through_witness :
  dict_lookup "top"
    (keyword_arguments
       (ev_call
          {| ev_call :=
               call_search (search_client_for test_config VNone)
                 (VStr "azure") [("top", VInt (-3))];
             ev_raised := None |}))
  = Some (match ({[ "query" := VStr "azure"; "top" := VInt (-3) ]}
                   : gmap string value) !! "top" with
          | Some top => top
          | None => VInt 10
          end).
Proof.
  apply (top_is_passed_through test_config (stub_backend two_documents 0)
           "search" {[ "query" := VStr "azure"; "top" := VInt (-3) ]}
           empty_world).
  - apply list_elem_of_In. simpl. tauto.
  - vm_compute. apply list_elem_of_here.
Defined.

(** X9. What [search] asks for: the [query] argument as search text
    ([None] when it is missing), the [filter] argument exactly when it is
    truthy (an empty filter is not sent), and never a query type or a
    semantic configuration. *)
Theorem search_passes_query_and_filter cfg be
    (arguments : gmap string value) w ev :
  ev ∈ events_during (call_tool cfg be "search" arguments) w ->
  let filter_expr := arg_get arguments "filter" in
  exists client kwargs,
    ev_call ev = call_search client (arg_get arguments "query") kwargs
    /\ dict_lookup "filter" kwargs
       = (if truthy filter_expr then Some filter_expr else None)
    /\ dict_lookup "query_type" kwargs = None
    /\ dict_lookup "semantic_configuration_name" kwargs = None.
Proof.
  intros Hin filter_expr. subst filter_expr.
  rewrite (search_invocation _ _ _ _ _ Hin).
  eexists _, _. split; [reflexivity|].
  destruct (truthy (arg_get arguments "select"));
    [destruct (py_split (arg_get arguments "select"))|];
    destruct (truthy (arg_get arguments "filter")); repeat split.
Qed.

Lemma search_passes_query_and_filter_witness :
  let filter_expr :=
    arg_get {[ "query" := VStr "azure"; "filter" := VStr "" ]} "filter" in
  exists client kwargs,
    ev_call
      {| ev_call :=
           call_search (search_client_for test_config VNone)
             (VStr "azure") [("top", VInt 10)];
         ev_raised := None |}
    = call_search client
        (arg_get {[ "query" := VStr "azure"; "filter" := VStr "" ]} "query")
        kwargs
    /\ dict_lookup "filter" kwargs
       = (if truthy filter_expr then Some filter_expr else None)
    /\ dict_lookup "query_type" kwargs = None
    /\ dict_lookup "semantic_configuration_name" kwargs = None.
Proof.
  apply (search_passes_query_and_filter test_config
           (stub_backend two_documents 0)
           {[ "query" := VStr "azure"; "filter" := VStr "" ]} empty_world).
  vm_compute. apply list_elem_of_here.
Defined.

(** X10. What [vector_search] asks for: a semantic query, under the
    [semantic_configuration] argument when it is truthy and under the
    configuration named [default] otherwise, and never a filter, whatever
    the arguments hold under [filter]. *)
Theorem vector_search_is_semantic_and_unfiltered cfg be
    (arguments : gmap string value) w ev :
  ev ∈ events_during (call_tool cfg be "vector_search" arguments) w ->
  let semantic_config := arg_get arguments "semantic_configuration" in
  exists client kwargs,
    ev_call ev = call_search client (arg_get arguments "query") kwargs
    /\ dict_lookup "query_type" kwargs = Some (VStr "semantic")
    /\ dict_lookup "semantic_configuration_name" kwargs
       = Some (if truthy semantic_config then semantic_config
               else VStr "default")
    /\ dict_lookup "filter" kwargs = None.
Proof.
  intros Hin semantic_config. subst semantic_config.
  rewrite (vector_search_invocation _ _ _ _ _ Hin).
  eexists _, _. split; [reflexivity|].
  destruct (truthy (arg_get arguments "select"));
    [destruct (py_split (arg_get arguments "select"))|]; repeat split.
Qed.

Lemma vector_search_is_semantic_and_unfiltered_witness :
  let semantic_config :=
    arg_get {[ "query" := VStr "azure"; "filter" := VStr "price lt 5" ]}
      "semantic_configuration" in
  exists client kwargs,
    ev_call
      {| ev_call :=
           call_search (search_client_for test_config VNone)
             (VStr "azure")
             [("top", VInt 10); ("query_type", VStr "semantic");
              ("semantic_configuration_name", VStr "default")];
         ev_raised := None |}
    = call_search client
        (arg_get {[ "query" := VStr "azure"; "filter" := VStr "price lt 5" ]}
           "query")
        kwargs
    /\ dict_lookup "query_type" kwargs = Some (VStr "semantic")
    /\ dict_lookup "semantic_configuration_name" kwargs
       = Some (if truthy semantic_config then semantic_config
               else VStr "default")
    /\ dict_lookup "filter" kwargs = None.
Proof.
  apply (vector_search_is_semantic_and_unfiltered test_config
           (stub_backend two_documents 0)
           {[ "query" := VStr "azure"; "filter" := VStr "price lt 5" ]}
           empty_world).
  vm_compute. apply list_elem_of_here.
Defined.

(** *** [str.split] *)

Lemma split_not_nil sep s : split sep s <> [].
Proof.
  destruct s as [|c s]; simpl; [discriminate|].
  destruct (Ascii.eqb c sep); [discriminate|].
  destruct (split sep s); discriminate.
Qed.

(** Joining the parts with the separator gives the string back. *)
Lemma join_split sep s :
  join (String sep EmptyString) (split sep s) = s.
Proof.
  induction s as [|c s IH]; simpl; [reflexivity|].
  destruct (Ascii.eqb c sep) eqn:E.
  - apply Ascii.eqb_eq in E. subst c.
    pose proof (split_not_nil sep s) as Hne.
    destruct (split sep s) as [|p ps]; [congruence|].
    simpl in *. rewrite IH. reflexivity.
  - destruct (split sep s) as [|p ps] eqn:Es.
    + destruct (split_not_nil sep s Es).
    + simpl in *. destruct ps; simpl in *; rewrite <- IH; reflexivity.
Qed.

(** No part holds the separator. *)
Lemma split_parts_hold_no_separator sep s part :
  part ∈ split sep s -> contains_char sep part = false.
Proof.
  revert part. induction s as [|c s IH]; simpl; intros part Hin.
  - apply list_elem_of_singleton in Hin. subst part. reflexivity.
  - destruct (Ascii.eqb c sep) eqn:E.
    + apply elem_of_cons in Hin as [->|Hin]; [reflexivity|]. auto.
    + destruct (split sep s) as [|p ps] eqn:Es.
      * apply list_elem_of_singleton in Hin. subst part. simpl.
        rewrite E. reflexivity.
      * apply elem_of_cons in Hin as [->|Hin].
        -- simpl. rewrite E. simpl. apply IH. apply list_elem_of_here.
        -- apply IH. apply list_elem_of_further. exact Hin.
Qed.

(** X11. A non-empty [select] string reaches the collaborator as the
    list of its comma-separated parts, in order: joining the parts with
    commas gives the string back, and no part holds a comma (empty parts
    and blanks are passed on as they are). *)
Theorem select_is_split_at_commas cfg be tool
    (arguments : gmap string value) w ev s :
  tool ∈ ["search"; "vector_search"; "get_document"] ->
  arguments !! "select" = Some (VStr s) ->
  s <> "" ->
  ev ∈ events_during (call_tool cfg be tool arguments) w ->
  exists fields,
    projection (ev_call ev) = Some (VList (map VStr fields))
    /\ join "," fields = s
    /\ forall field, field ∈ fields -> contains_char "," field = false.
Proof.
  intros Htool Hsel Hne Hin.
  assert (arg_get arguments "select" = VStr s) as Es
    by (unfold arg_get; rewrite Hsel; reflexivity).
  assert (truthy (VStr s) = true) as Ht.
  { simpl. apply negb_true_iff, String.eqb_neq. exact Hne. }
  exists (split "," s). split; [|split].
  - apply list_elem_of_In in Htool.
    destruct Htool as [<-|[<-|[<-|[]]]].
    + rewrite (search_invocation _ _ _ _ _ Hin), Es, Ht. reflexivity.
    + rewrite (vector_search_invocation _ _ _ _ _ Hin), Es, Ht. reflexivity.
    + rewrite (get_document_invocation _ _ _ _ _ Hin), Es, Ht. reflexivity.
  - apply join_split.
  - intros field. apply split_parts_hold_no_separator.
Qed.

Lemma select_is_split_at_commas_witness :
  exists fields,
    projection
      (ev_call
         {| ev_call :=
              call_get_document (search_client_for test_config VNone)
                (VStr "1") (VList [VStr "id"; VStr " title"; VStr ""]);
            ev_raised := None |})
    = Some (VList (map VStr fields))
    /\ join "," fields = "id, title,"
    /\ forall field, field ∈ fields -> contains_char "," field = false.
Proof.
  apply (select_is_split_at_commas test_config (stub_backend two_documents 0)
           "get_document"
           {[ "key" := VStr "1"; "select" := VStr "id, title," ]}
           empty_world).
  - apply list_elem_of_In. simpl. tauto.
  - reflexivity.
  - discriminate.
  - vm_compute. apply list_elem_of_here.
Defined.

(** *** Payloads that [json.dumps] accepts without the [default] hook *)

Arguments json_dumps : simpl never.

Lemma json_dumps_plain payload :
  first_object payload = None ->
  json_dumps false payload = Return (json_encode 0 payload).
Proof. intros H. unfold json_dumps. rewrite H. reflexivity. Qed.

Lemma json_dumps_default payload :
  json_dumps true payload = Return (json_encode 0 payload).
Proof. reflexivity. Qed.

Lemma first_object_VList l :
  Forall (fun v => first_object v = None) l ->
  first_object (VList l) = None.
Proof.
  induction 1 as [|v l Hv _ IH]; simpl; [reflexivity|].
  rewrite Hv. exact IH.
Qed.

Lemma first_object_index_summaries indexes :
  first_object (VList (map index_summary indexes)) = None.
Proof.
  apply first_object_VList, Forall_forall. intros v Hv.
  apply list_elem_of_fmap in Hv as (index & -> & _). reflexivity.
Qed.

Lemma first_object_field_records fields :
  first_object (VList (map field_record fields)) = None.
Proof.
  apply first_object_VList, Forall_forall. intros v Hv.
  apply list_elem_of_fmap in Hv as (field & -> & _).
  unfold field_record.
  destruct (field_searchable field), (field_filterable field),
    (field_sortable field), (field_facetable field), (field_key field);
    reflexivity.
Qed.

Lemma first_object_names (names : list string) :
  first_object (VList (map VStr names)) = None.
Proof.
  apply first_object_VList, Forall_forall. intros v Hv.
  apply list_elem_of_fmap in Hv as (s & -> & _). reflexivity.
Qed.

(** X12. [list_indexes] answers with one record per index, in the order
    the collaborator listed them: the name of the index and the number
    of its fields, which is 0 when the index has no field list. *)
Theorem list_indexes_summarises_every_index cfg be
    (arguments : gmap string value) w indexes :
  new_SearchIndexClient be (index_client cfg) = None ->
  client_list_indexes be (index_client cfg) = Return indexes ->
  fst (call_tool cfg be "list_indexes" arguments w)
  = Return (content_result
      (VDict [("indexes",
                VList (map (fun index =>
                              VDict [("name", VStr (index_name index));
                                     ("fields_count",
                                       VInt (Z.of_nat
                                         (List.length
                                            (match index_fields index with
                                             | Some fields => fields
                                             | None => []
                                             end))))])
                           indexes))])).
Proof.
  intros Hnew Hlist. rewrite call_tool_unfold.
  change (call_tool_body cfg be "list_indexes" arguments)
    with (tool_list_indexes cfg be).
  run_tool. rewrite Hnew. simpl. rewrite Hlist. simpl.
  rewrite json_dumps_plain.
  2: { pose proof (first_object_index_summaries indexes) as H.
       simpl in *. rewrite H. reflexivity. }
  simpl. unfold content_result. do 8 f_equal.
  apply map_ext. intros index. unfold index_summary.
  destruct (index_fields index) as [[|field fields]|]; reflexivity.
Qed.

Lemma list_indexes_summarises_every_index_witness :
  fst (call_tool test_config (stub_backend [] 0) "list_indexes" ∅
         empty_world)
  = Return (content_result
      (VDict [("indexes",
                VList (map (fun index =>
                              VDict [("name", VStr (index_name index));
                                     ("fields_count",
                                       VInt (Z.of_nat
                                         (List.length
                                            (match index_fields index with
                                             | Some fields => fields
                                             | None => []
                                             end))))])
                           [products_index]))])).
Proof.
  apply (list_indexes_summarises_every_index test_config (stub_backend [] 0)
           ∅ empty_world [products_index]); reflexivity.
Defined.

(** X13. [get_index_schema] describes the index the collaborator
    returned: its own name, one record per field in order (an unset flag
    is written as [None]), and the names of its semantic configurations,
    an empty list when the index has no semantic search. *)
Theorem get_index_schema_describes_the_index cfg be
    (arguments : gmap string value) w index fields names :
  new_SearchIndexClient be (index_client cfg) = None ->
  client_get_index be (index_client cfg) (arg_get arguments "index_name")
  = Return index ->
  index_fields index = Some fields ->
  (index_semantic_search index = None /\ names = [])
  \/ (exists cs,
        index_semantic_search index = Some {| configurations := Some cs |}
        /\ names = map configuration_name cs) ->
  call_tool cfg be "get_index_schema" arguments w
  = (Return (content_result
       (VDict [("index_name", VStr (index_name index));
               ("fields", VList (map field_record fields));
               ("semantic_configurations", VList (map VStr names))])),
     {| backend_events :=
          (backend_events w
             ++ [{| ev_call :=
                      call_get_index (index_client cfg)
                        (arg_get arguments "index_name");
                    ev_raised := None |}])%list;
        error_log := error_log w |}).
Proof.
  intros Hnew Hget Hfields Hsem. rewrite call_tool_unfold.
  change (call_tool_body cfg be "get_index_schema" arguments)
    with (tool_get_index_schema cfg be arguments).
  run_tool. rewrite Hnew. simpl. rewrite Hget. simpl.
  rewrite Hfields. simpl.
  pose proof (first_object_field_records fields) as H1.
  destruct Hsem as [[-> ->]|(cs & -> & ->)]; simpl.
  - rewrite json_dumps_plain; [reflexivity|].
    simpl in *. rewrite H1. reflexivity.
  - pose proof (first_object_names (map configuration_name cs)) as H2.
    rewrite map_map in *.
    rewrite json_dumps_plain; [reflexivity|].
    simpl in *. rewrite H1, H2. reflexivity.
Qed.

Lemma get_index_schema_describes_the_index_witness :
  call_tool test_config (stub_backend [] 0) "get_index_schema"
    {[ "index_name" := VStr "catalogue" ]} empty_world
  = (Return (content_result
       (VDict [("index_name", VStr (index_name products_index));
               ("fields",
                 VList (map field_record
                          [{| field_name := "id"; field_type := "Edm.String";
                              field_searchable := Some false;
                              field_filterable := None;
                              field_sortable := None;
                              field_facetable := None;
                              field_key := Some true |}]));
               ("semantic_configurations", VList (map VStr []))])),
     {| backend_events :=
          (backend_events empty_world
             ++ [{| ev_call :=
                      call_get_index (index_client test_config)
                        (arg_get {[ "index_name" := VStr "catalogue" ]}
                           "index_name");
                    ev_raised := None |}])%list;
        error_log := error_log empty_world |}).
Proof.
  apply (get_index_schema_describes_the_index test_config (stub_backend [] 0)
           {[ "index_name" := VStr "catalogue" ]} empty_world products_index).
  - reflexivity.
  - reflexivity.
  - reflexivity.
  - left. split; reflexivity.
Defined.



(** X15. [get_document] asks for the document under the [key] argument,
    with the parts of [select] as the fields to return ([None] when
    [select] is falsy), and returns the document as the collaborator
    gave it: unlike the search tools it drops no field, whatever its
    name. *)
Theorem get_document_returns_the_document_as_is cfg be
    (arguments : gmap string value) w selected_fields document :
  new_SearchClient be
    (search_client_for cfg (arg_get arguments "index_name")) = None ->
  (truthy (arg_get arguments "select") = false /\ selected_fields = VNone)
  \/ (exists s,
        arg_get arguments "select" = VStr s /\ s <> ""
        /\ selected_fields = VList (map VStr (split "," s))) ->
  client_get_document be
    (search_client_for cfg (arg_get arguments "index_name"))
    (arg_get arguments "key") selected_fields
  = Return document ->
  call_tool cfg be "get_document" arguments w
  = (Return (content_result (VDict document)),
     {| backend_events :=
          (backend_events w
             ++ [{| ev_call :=
                      call_get_document
                        (search_client_for cfg
                           (arg_get arguments "index_name"))
                        (arg_get arguments "key") selected_fields;
                    ev_raised := None |}])%list;
        error_log := error_log w |}).
Proof.
  intros Hnew Hsel Hget. rewrite call_tool_unfold.
  change (call_tool_body cfg be "get_document" arguments)
    with (tool_get_document cfg be arguments).
  run_tool. rewrite Hnew. simpl.
  destruct Hsel as [[Hf ->]|(s & Hs & Hne & ->)].
  - rewrite Hf. simpl. rewrite Hget. reflexivity.
  - rewrite Hs.
    assert (truthy (VStr s) = true) as ->
      by (simpl; apply negb_true_iff, String.eqb_neq; exact Hne).
    simpl. rewrite Hget. reflexivity.
Qed.

Lemma get_document_returns_the_document_as_is_witness :
  call_tool test_config (stub_backend two_documents 0) "get_document"
    {[ "key" := VStr "1" ]} empty_world
  = (Return
       (content_result
          (VDict [("id", VStr "1"); ("@search.score", score "1.5");
                  ("title", VStr "a")])),
     {| backend_events :=
          (backend_events empty_world
             ++ [{| ev_call :=
                      call_get_document
                        (search_client_for test_config
                           (arg_get {[ "key" := VStr "1" ]} "index_name"))
                        (arg_get {[ "key" := VStr "1" ]} "key") VNone;
                    ev_raised := None |}])%list;
        error_log := error_log empty_world |}).
Proof.
  apply (get_document_returns_the_document_as_is test_config
           (stub_backend two_documents 0) {[ "key" := VStr "1" ]}
           empty_world VNone).
  - reflexivity.
  - left. split; reflexivity.
  - reflexivity.
Defined.

(** *** Document records *)

Lemma dict_lookup_dict_set_eq k v d :
  dict_lookup k (dict_set k v d) = Some v.
Proof.
  induction d as [|[k' v'] d IH]; simpl.
  - rewrite String.eqb_refl. reflexivity.
  - destruct (String.eqb k k') eqn:E; simpl; rewrite E; auto.
Qed.

(** X16. A document record keeps, under its own name and with its own
    value, every field of the result whose name does not start with [@],
    except that [_score] always holds the result's [@search.score] and,
    for [vector_search], [_reranker_score] its [@search.reranker_score]
    ([None] when the result has none): a field of the document that is
    itself named [_score] or [_reranker_score] is overwritten. *)
Theorem document_records_keep_fields_and_set_scores result :
  dict_lookup "_score" (search_document result)
  = Some (dict_get "@search.score" result)
  /\ dict_lookup "_score" (vector_search_document result)
     = Some (dict_get "@search.score" result)
  /\ dict_lookup "_reranker_score" (vector_search_document result)
     = Some (dict_get "@search.reranker_score" result)
  /\ (forall k,
        startswith "@" k = false -> k <> "_score" ->
        dict_lookup k (search_document result) = dict_lookup k result)
  /\ (forall k,
        startswith "@" k = false -> k <> "_score" ->
        k <> "_reranker_score" ->
        dict_lookup k (vector_search_document result)
        = dict_lookup k result).
Proof.
  unfold search_document, vector_search_document. repeat split.
  - apply dict_lookup_dict_set_eq.
  - rewrite dict_lookup_dict_set_ne by discriminate.
    apply dict_lookup_dict_set_eq.
  - apply dict_lookup_dict_set_eq.
  - intros k Hk Hne. rewrite dict_lookup_dict_set_ne by exact Hne.
    apply (dict_lookup_filter (fun k => negb (startswith "@" k))).
    rewrite Hk. reflexivity.
  - intros k Hk Hne Hne'.
    rewrite !dict_lookup_dict_set_ne by assumption.
    apply (dict_lookup_filter (fun k => negb (startswith "@" k))).
    rewrite Hk. reflexivity.
Qed.

Lemma keys_dict_set k v d :
  keys (dict_set k v d)
  = if has_key k d then keys d else (keys d ++ [k])%list.
Proof.
  unfold keys, has_key. induction d as [|[k' v'] d IH]; simpl; auto.
  destruct (String.eqb k k') eqn:E; simpl; auto.
  rewrite IH. destruct (dict_lookup k d); reflexivity.
Qed.

Lemma has_key_keys k d : has_key k d = true <-> k ∈ keys d.
Proof.
  unfold has_key, keys. induction d as [|[k' v'] d IH]; simpl.
  - split; [discriminate|]. intros H. inversion H.
  - destruct (String.eqb k k') eqn:E.
    + apply String.eqb_eq in E. subst k'. split; auto.
      intros _. apply list_elem_of_here.
    + apply String.eqb_neq in E. rewrite IH. split.
      * intros H. apply list_elem_of_further. exact H.
      * intros H. apply elem_of_cons in H as [H|H]; [contradiction|exact H].
Qed.

Lemma NoDup_keys_dict_set k v d : NoDup (keys d) -> NoDup (keys (dict_set k v d)).
Proof.
  intros H. rewrite keys_dict_set. destruct (has_key k d) eqn:E; auto.
  apply NoDup_app. split; [exact H|]. split.
  - intros x Hx Hx'. apply list_elem_of_singleton in Hx'. subst x.
    apply has_key_keys in Hx. congruence.
  - apply NoDup_singleton.
Qed.

Lemma NoDup_keys_filter (keep : string * value -> bool) d :
  NoDup (keys d) -> NoDup (keys (List.filter keep d)).
Proof.
  unfold keys. induction d as [|[k v] d IH]; simpl; intros H; auto.
  apply NoDup_cons in H as [Hk Hd].
  destruct (keep (k, v)); simpl; auto.
  apply NoDup_cons. split; auto.
  intros Hin. apply Hk.
  apply list_elem_of_fmap in Hin as ([k' v'] & -> & Hin).
  apply list_elem_of_fmap. exists (k', v'). split; auto.
  apply list_elem_of_In. apply list_elem_of_In, filter_In in Hin. apply Hin.
Qed.

(** X17. A result without repeated field names gives a document record
    without repeated field names, for both search tools: the score
    fields replace a field of the same name instead of being added next
    to it. *)
Theorem document_records_have_unique_keys tool result :
  NoDup (keys result) -> NoDup (keys (document_of tool result)).
Proof.
  intros H. unfold document_of, vector_search_document, search_document.
  destruct (String.eqb tool "vector_search");
    repeat apply NoDup_keys_dict_set; apply NoDup_keys_filter; exact H.
Qed.

Lemma document_records_have_unique_keys_witness :
  NoDup (keys (document_of "search"
                 [("_score", VInt 1); ("id", VStr "1");
                  ("@search.score", score "0.5")])).
Proof.
  apply (document_records_have_unique_keys "search"
           [("_score", VInt 1); ("id", VStr "1");
            ("@search.score", score "0.5")]).
  vm_compute. repeat constructor; intros H; inversion H; subst;
    repeat match goal with
           | H : _ ∈ _ |- _ => inversion H; clear H; subst
           end.
Defined.

(** X18. [get_document_count] names in its answer the index it counted:
    the [index_name] argument, or the configured default index when the
    argument is the empty string. *)
Theorem document_count_names_the_index_counted cfg be
    (arguments : gmap string value) w idx n :
  arguments !! "index_name" = Some (VStr idx) ->
  new_SearchClient be (search_client_for cfg (VStr idx)) = None ->
  client_get_document_count be (search_client_for cfg (VStr idx))
  = Return n ->
  let counted :=
    if String.eqb idx "" then of_getenv (AZURE_SEARCH_INDEX cfg)
    else VStr idx in
  sc_index_name (search_client_for cfg (VStr idx)) = counted
  /\ call_tool cfg be "get_document_count" arguments w
     = (Return (content_result
          (VDict [("index", counted); ("document_count", VInt n)])),
        {| backend_events :=
             (backend_events w
                ++ [{| ev_call :=
                         call_get_document_count
                           (search_client_for cfg (VStr idx));
                       ev_raised := None |}])%list;
           error_log := error_log w |}).
Proof.
  intros Harg Hnew Hcount counted.
  assert (arg_get arguments "index_name" = VStr idx) as Ei
    by (unfold arg_get; rewrite Harg; reflexivity).
  assert (py_or (VStr idx) (of_getenv (AZURE_SEARCH_INDEX cfg)) = counted)
    as Hor.
  { unfold py_or, counted. simpl. destruct (String.eqb idx ""); reflexivity. }
  split; [exact Hor|].
  rewrite call_tool_unfold.
  change (call_tool_body cfg be "get_document_count" arguments)
    with (tool_get_document_count cfg be arguments).
  run_tool. rewrite Ei, Hnew. simpl. rewrite Hcount. simpl.
  rewrite Hor. rewrite json_dumps_plain; [reflexivity|].
  unfold counted.
  destruct (String.eqb idx ""); [|reflexivity].
  destruct (AZURE_SEARCH_INDEX cfg); reflexivity.
Qed.

Lemma document_count_names_the_index_counted_witness :
  let counted :=
    if String.eqb "archive" "" then of_getenv (AZURE_SEARCH_INDEX test_config)
    else VStr "archive" in
  sc_index_name (search_client_for test_config (VStr "archive")) = counted
  /\ call_tool test_config (stub_backend [] 7) "get_document_count"
       {[ "index_name" := VStr "archive" ]} empty_world
     = (Return (content_result
          (VDict [("index", counted); ("document_count", VInt 7)])),
        {| backend_events :=
             (backend_events empty_world
                ++ [{| ev_call :=
                         call_get_document_count
                           (search_client_for test_config (VStr "archive"));
                       ev_raised := None |}])%list;
           error_log := error_log empty_world |}).
Proof.
  apply (document_count_names_the_index_counted test_config
           (stub_backend [] 7) {[ "index_name" := VStr "archive" ]}
           empty_world "archive" 7); reflexivity.
Defined.

(** *** Reading an error envelope back *)

Lemma append_assoc (s1 s2 s3 : string) :
  (s1 ++ s2) ++ s3 = s1 ++ (s2 ++ s3).
Proof.
  induction s1 as [|c s1 IH]; [reflexivity|].
  change (String c ((s1 ++ s2) ++ s3) = String c (s1 ++ (s2 ++ s3))).
  rewrite IH. reflexivity.
Qed.

(** [json_unescape_first] reads back what [json_escape_char] wrote. *)
Lemma json_unescape_first_escape c r :
  json_unescape_first (json_escape_char c ++ r) = Some (c, r).
Proof.
  destruct c as [[] [] [] [] [] [] [] []]; reflexivity.
Qed.

Lemma json_unescape_first_quote r :
  json_unescape_first (dquote ++ r) = None.
Proof. reflexivity. Qed.

(** The inside of a JSON string, up to its closing quote, determines the
    string. *)
Lemma json_escape_inj s1 s2 t1 t2 :
  json_escape s1 ++ dquote ++ t1 = json_escape s2 ++ dquote ++ t2 ->
  s1 = s2 /\ t1 = t2.
Proof.
  revert s2. induction s1 as [|c1 s1 IH]; intros [|c2 s2] H.
  - split; [reflexivity|]. injection H as H. exact H.
  - apply (f_equal json_unescape_first) in H.
    change (json_escape (String c2 s2))
      with (json_escape_char c2 ++ json_escape s2) in H.
    rewrite append_assoc, json_unescape_first_escape in H.
    discriminate H.
  - apply (f_equal json_unescape_first) in H.
    change (json_escape (String c1 s1))
      with (json_escape_char c1 ++ json_escape s1) in H.
    rewrite append_assoc, json_unescape_first_escape in H.
    discriminate H.
  - change (json_escape (String c1 s1))
      with (json_escape_char c1 ++ json_escape s1) in H.
    change (json_escape (String c2 s2))
      with (json_escape_char c2 ++ json_escape s2) in H.
    rewrite !append_assoc in H.
    apply (f_equal json_unescape_first) in H.
    rewrite !json_unescape_first_escape in H.
    injection H as -> H. destruct (IH s2 H) as [-> ->]. auto.
Qed.

Lemma error_text msg :
  json_encode 0 (error_payload msg)
  = ("{" ++ newline ++ "  " ++ dquote ++ "error" ++ dquote ++ ": " ++ dquote)
      ++ json_escape msg ++ dquote ++ newline ++ "}".
Proof.
  transitivity
    (("{" ++ newline ++ "  " ++ dquote ++ "error" ++ dquote ++ ": " ++ dquote)
       ++ (json_escape msg ++ dquote) ++ newline ++ "}").
  - reflexivity.
  - rewrite (append_assoc (json_escape msg) dquote). reflexivity.
Qed.

(** X19. The error envelope determines the message it carries: two
    failures with different messages are answered with different
    lists. *)
Theorem error_result_determines_the_message m1 m2 :
  error_result m1 = error_result m2 -> m1 = m2.
Proof.
  intros H.
  apply (f_equal (fun r => match r with
                           | [block] => text block
                           | _ => ""
                           end)) in H.
  change (json_encode 0 (error_payload m1) = json_encode 0 (error_payload m2))
    in H.
  rewrite !error_text in H.
  apply (inj (String.append _)) in H.
  apply json_escape_inj in H. apply H.
Qed.

Lemma error_result_determines_the_message_witness :
  String (ascii_of_nat 34) "a\b" = String (ascii_of_nat 34) "a\b".
Proof.
  apply (error_result_determines_the_message
           (String (ascii_of_nat 34) "a\b") (String (ascii_of_nat 34) "a\b")).
  reflexivity.
Defined.

(** The text of a dictionary starts with its first key. *)
Lemma dict_text_head k v d :
  exists rest,
    json_encode 0 (VDict ((k, v) :: d))
    = ("{" ++ newline ++ "  " ++ dquote) ++ json_escape k ++ dquote ++ rest.
Proof.
  destruct d as [|kv d].
  - exists (": " ++ json_encode 1 v ++ newline ++ "}").
    transitivity
      (("{" ++ newline ++ "  " ++ dquote)
         ++ ((json_escape k ++ dquote) ++ ": " ++ json_encode 1 v)
         ++ newline ++ "}").
    + reflexivity.
    + rewrite !append_assoc. reflexivity.
  - set (others :=
           join ("," ++ newline ++ "  ")
             (map (fun kv => json_string (fst kv) ++ ": "
                               ++ json_encode 1 (snd kv)) (kv :: d))).
    exists (": " ++ json_encode 1 v
              ++ ("," ++ newline ++ "  " ++ others) ++ newline ++ "}").
    transitivity
      (("{" ++ newline ++ "  " ++ dquote)
         ++ (((json_escape k ++ dquote) ++ ": " ++ json_encode 1 v)
               ++ "," ++ newline ++ "  " ++ others)
         ++ newline ++ "}").
    + reflexivity.
    + rewrite !append_assoc. reflexivity.
Qed.

(** A dictionary whose first key is not [error] is not written as an
    error envelope is. *)
Lemma not_an_error_text k v d msg :
  k <> "error" ->
  json_encode 0 (VDict ((k, v) :: d)) <> json_encode 0 (error_payload msg).
Proof.
  intros Hk H.
  destruct (dict_text_head k v d) as [r1 H1].
  destruct (dict_text_head "error" (VStr msg) []) as [r2 H2].
  unfold error_payload in H. rewrite H1, H2 in H.
  apply (inj (String.append _)) in H.
  apply json_escape_inj in H. apply Hk, H.
Qed.

Ltac returned_text :=
  repeat match goal with
         | H : json_dumps false _ = Return _ |- _ =>
             unfold json_dumps in H;
             destruct (first_object _) in H; [discriminate H|];
             injection H as H
         | H : json_dumps true _ = Return _ |- _ =>
             unfold json_dumps in H; injection H as H
         end.

(** X20. What [search], [vector_search], [list_indexes],
    [get_index_schema] and [get_document_count] return when nothing was
    raised is never an error envelope: a client tells success from
    failure by the text alone.  ([get_document] returns the stored
    document as it is, so it gives no such guarantee.) *)
Theorem content_is_never_an_error_envelope cfg be tool
    (arguments : gmap string value) w r msg :
  tool ∈ ["search"; "vector_search"; "list_indexes"; "get_index_schema";
          "get_document_count"] ->
  fst (call_tool_body cfg be tool arguments w) = Return r ->
  fst (call_tool cfg be tool arguments w) = Return r
  /\ r <> error_result msg.
Proof.
  intros Htool Hret. split.
  { rewrite call_tool_unfold.
    destruct (call_tool_body cfg be tool arguments w) as [[r'|e] w'];
      simpl in *; congruence. }
  revert Hret. apply list_elem_of_In in Htool. simpl in Htool.
  destruct Htool as [<-|[<-|[<-|[<-|[<-|[]]]]]].
  all: unfold call_tool_body; simpl String.eqb; cbv iota.
  all: run_tool; split_outcomes; intros Hret Herr.
  all: try discriminate Hret.
  all: injection Hret as <-; returned_text.
  all: apply (f_equal (fun r => match r with
                                | [block] => text block
                                | _ => ""
                                end)) in Herr; simpl in Herr.
  all: subst; revert Herr; apply not_an_error_text; discriminate.
Qed.

Lemma content_is_never_an_error_envelope_witness :
  fst (call_tool test_config (stub_backend [] 0) "search"
         {[ "query" := VStr "error" ]} empty_world)
  = Return (content_result (results_payload []))
  /\ content_result (results_payload []) <> error_result "error".
Proof.
  apply (content_is_never_an_error_envelope test_config (stub_backend [] 0)
           "search" {[ "query" := VStr "error" ]} empty_world).
  - apply list_elem_of_In. simpl. tauto.
  - reflexivity.
Defined.

(** [get_document] gives no such guarantee: a stored document that
    looks like an error envelope is answered as one. *)
Example a_document_can_look_like_a_failure :
  fst (call_tool test_config
         (stub_backend [[("error", VStr "disk full")]] 0) "get_document"
         {[ "key" := VStr "1" ]} empty_world)
  = Return (error_result "disk full").
Proof. reflexivity. Qed.
